(** * Scope 3 business-travel emissions calculator: model of [main.py]

    The development embeds the computational core of the Streamlit script:
    the city registry and great-circle distance ([haversine_distance],
    [calculate_distance]), the emission-factor tables and flight banding
    ([get_flight_emission_factor]), and the body of the "Calculate
    Emissions" button handler together with the session state it updates.

    Python [float] arithmetic is reached through the interface [PyFloat].
    The program is written once over that interface, and what does not
    depend on the laws of arithmetic is proved for every interpretation of
    it.  Two interpretations are given: [IEEE], binary64 floating point,
    the arithmetic the script runs on, and [Exact], exact decimal
    arithmetic on canonical rationals, in which the properties of order
    and sign are proved.  Equalities between sums and roundings that hold
    in [Exact] alone are not stated.  The libm functions ([math.sin] and
    friends) are a parameter record [LibM].

    Outside the model: the widgets, charts and CSV export; [st.success]
    and [st.rerun] after the handler's last assignment; the
    [OverflowError] of an [int] too large for a [float]: the passenger
    and night counts of the model are those that convert
    ([int_fits_float]). *)

From Stdlib Require Import ZArith QArith Qcanon Lia String Ascii.
From Stdlib Require Import Uint63 PrimFloat SpecFloat FloatOps.
From Stdlib Require Import Lqa Qabs Qpower.
From stdpp Require Import base option list strings gmap numbers.

Local Open Scope Z_scope.
Local Open Scope string_scope.

(** ** Exceptions *)

(** The exceptions the modelled code can raise. *)
Inductive exn : Type :=
  | KeyError (key : string)
  | ZeroDivisionError
  | TypeError.

Inductive result (A : Type) : Type :=
  | Ok (a : A)
  | Raise (e : exn).
Arguments Ok {A} a.
Arguments Raise {A} e.

#[global] Instance result_ret : MRet result := @Ok.
#[global] Instance result_bind : MBind result := λ A B f r,
  match r with
  | Ok a => f a
  | Raise e => Raise e
  end.

(** ** Numbers *)

(** The operations of Python's numeric tower that the script uses. *)
Class PyFloat (F : Type) : Type := {
  f_of_Z : Z → F;           (* an [int] operand in mixed arithmetic *)
  f_dec : Z → nat → F;      (* the decimal literal [m]e-[k] *)
  f_add : F → F → F;
  f_sub : F → F → F;
  f_mul : F → F → F;
  f_div : F → F → F;        (* the quotient, for a non-zero divisor *)
  f_ltb : F → F → bool;
  f_round2 : F → F          (* [round(x, 2)] *)
}.

Global Hint Mode PyFloat ! : typeclass_instances.

Declare Scope pyfloat_scope.
Delimit Scope pyfloat_scope with F.
Infix "+" := f_add : pyfloat_scope.
Infix "-" := f_sub : pyfloat_scope.
Infix "*" := f_mul : pyfloat_scope.
Infix "<?" := f_ltb : pyfloat_scope.

(** [x / n] for an [int] divisor [n]: Python raises on a zero divisor.
    The divisor is taken to convert to a [float]. *)
Definition truediv `{PyFloat F} (x : F) (n : Z) : result F :=
  if decide (n = 0) then Raise ZeroDivisionError
  else Ok (f_div x (f_of_Z n)).

(** The functions of the [math] module that [haversine_distance] calls. *)
Record LibM (F : Type) : Type := {
  m_radians : F → F;
  m_sin : F → F;
  m_cos : F → F;
  m_asin : F → F;
  m_sqrt : F → F;
  m_pow : F → Z → F         (* [x ** n] *)
}.
Arguments m_radians {F}.
Arguments m_sin {F}.
Arguments m_cos {F}.
Arguments m_asin {F}.
Arguments m_sqrt {F}.
Arguments m_pow {F}.

(** ** Strings *)

(** [s.startswith(pre)] *)
Fixpoint startswith (s pre : string) : bool :=
  match pre with
  | EmptyString => true
  | String c pre' =>
      match s with
      | EmptyString => false
      | String d s' => Ascii.eqb c d && startswith s' pre'
      end
  end.

(** [d[k]] on a dict: the value, or [KeyError]. *)
Definition getitem {V} (d : gmap string V) (k : string) : result V :=
  match d !! k with
  | Some v => Ok v
  | None => Raise (KeyError k)
  end.

(** A Python [for] loop with loop-carried variables [s]: the body runs on
    each element in order, and an exception leaves the loop at once. *)
Fixpoint for_each {A S} (body : S → A → result S) (xs : list A) (s : S)
  : result S :=
  match xs with
  | [] => Ok s
  | x :: xs' => s' ← body s x; for_each body xs' s'
  end.

Section Program.
Context {F : Type} `{PyFloat F}.
Variable libm : LibM F.

Local Open Scope pyfloat_scope.

(** ** GeoDistance *)

Definition haversine_distance (lat1 lon1 lat2 lon2 : F) : F :=
  let lat1 := m_radians libm lat1 in
  let lon1 := m_radians libm lon1 in
  let lat2 := m_radians libm lat2 in
  let lon2 := m_radians libm lon2 in
  let dlon := lon2 - lon1 in
  let dlat := lat2 - lat1 in
  let a := m_pow libm (m_sin libm (f_div dlat (f_of_Z 2))) 2
           + m_cos libm lat1 * m_cos libm lat2
             * m_pow libm (m_sin libm (f_div dlon (f_of_Z 2))) 2 in
  let c := f_of_Z 2 * m_asin libm (m_sqrt libm a) in
  let r := f_of_Z 6371 in
  c * r.

Definition CITY_COORDINATES : gmap string (F * F) :=
  list_to_map [
    ("VELLORE", (f_dec 129165 4, f_dec 791325 4));
    ("CHENNAI", (f_dec 130827 4, f_dec 802707 4));
    ("DELHI", (f_dec 286139 4, f_dec 772090 4));
    ("MUMBAI", (f_dec 190760 4, f_dec 728777 4));
    ("LONDON", (f_dec 515074 4, f_dec (-1278) 4));
    ("NEW YORK", (f_dec 407128 4, f_dec (-740060) 4));
    ("AHMEDABAD", (f_dec 230225 4, f_dec 725714 4));
    ("BENGALURU", (f_dec 129716 4, f_dec 775946 4));
    ("HYDERABAD", (f_dec 173850 4, f_dec 784867 4));
    ("KOLKATA", (f_dec 225726 4, f_dec 883639 4));
    ("DUBAI", (f_dec 25276987 6, f_dec 55296249 6));
    ("PARIS", (f_dec 488566 4, f_dec 23522 4));
    ("TOKYO", (f_dec 356762 4, f_dec 1396503 4));
    ("SYDNEY", (f_dec (-338688) 4, f_dec 1512093 4));
    ("SINGAPORE", (f_dec 13521 4, f_dec 1038198 4));
    ("HONG KONG", (f_dec 223193 4, f_dec 1141694 4));
    ("SAN FRANCISCO", (f_dec 377749 4, f_dec (-1224194) 4));
    ("BERLIN", (f_dec 525200 4, f_dec 134050 4));
    ("TORONTO", (f_dec 436532 4, f_dec (-793832) 4));
    ("CAIRO", (f_dec 300444 4, f_dec 312357 4))
  ].

(** [if coord1 and coord2]: [None] is falsy, a pair of coordinates is a
    non-empty tuple and so truthy.  The fall-through returns [0]. *)
Definition calculate_distance (from_city to_city : string) : F :=
  let coord1 := CITY_COORDINATES !! from_city in
  let coord2 := CITY_COORDINATES !! to_city in
  match coord1, coord2 with
  | Some c1, Some c2 =>
      f_round2 (haversine_distance c1.1 c1.2 c2.1 c2.2)
  | _, _ => f_of_Z 0
  end.

(** ** Emission-factor tables *)

(** A value of [EMISSION_FACTORS]: a dict of band factors for a flight
    class, a plain number for every other mode. *)
Inductive factor_entry : Type :=
  | Tiered (bands : gmap string F)
  | Flat (factor : F).

Definition EMISSION_FACTORS : gmap string factor_entry :=
  list_to_map [
    ("FLIGHT - ECONOMY", Tiered (list_to_map [
        ("short_haul", f_dec 15 2);
        ("medium_haul", f_dec 12 2);
        ("long_haul", f_dec 9 2)]));
    ("FLIGHT - BUSINESS", Tiered (list_to_map [
        ("short_haul", f_dec 30 2);
        ("medium_haul", f_dec 24 2);
        ("long_haul", f_dec 18 2)]));
    ("FLIGHT - FIRST", Tiered (list_to_map [
        ("short_haul", f_dec 45 2);
        ("medium_haul", f_dec 36 2);
        ("long_haul", f_dec 27 2)]));
    ("TRAIN - STANDARD", Flat (f_dec 35 3));
    ("TRAIN - HIGH SPEED", Flat (f_dec 5 2));
    ("BUS - STANDARD", Flat (f_dec 4 2));
    ("BUS - COACH", Flat (f_dec 3 2));
    ("CAR - GASOLINE", Flat (f_dec 12 2));
    ("CAR - DIESEL", Flat (f_dec 14 2));
    ("CAR - HYBRID", Flat (f_dec 8 2));
    ("CAR - ELECTRIC", Flat (f_dec 5 2));
    ("TAXI", Flat (f_dec 15 2));
    ("FERRY", Flat (f_dec 19 2))
  ].

Definition HOTEL_EMISSION_FACTORS : gmap string F :=
  list_to_map [
    ("BUDGET", f_dec 150 1);
    ("MID-RANGE", f_dec 250 1);
    ("LUXURY", f_dec 400 1)
  ].

Definition MEAL_EMISSION_FACTORS : gmap string F :=
  list_to_map [
    ("VEGAN", f_dec 15 1);
    ("VEGETARIAN", f_dec 25 1);
    ("OMNIVORE", f_dec 40 1)
  ].

(** The [category] variable of [get_flight_emission_factor]. *)
Definition flight_category (distance : F) : string :=
  if distance <? f_of_Z 800 then "short_haul"
  else if distance <? f_of_Z 3700 then "medium_haul"
  else "long_haul".

(** [EMISSION_FACTORS[cls][category]] *)
Definition flight_factor (cls category : string) : result F :=
  e ← getitem EMISSION_FACTORS cls;
  match e with
  | Tiered bands => getitem bands category
  | Flat _ => Raise TypeError
  end.

Definition get_flight_emission_factor (distance : F) (travel_class : string)
  : result F :=
  let category := flight_category distance in
  if decide (travel_class = "FLIGHT - ECONOMY") then
    flight_factor "FLIGHT - ECONOMY" category
  else if decide (travel_class = "FLIGHT - BUSINESS") then
    flight_factor "FLIGHT - BUSINESS" category
  else
    flight_factor "FLIGHT - FIRST" category.

(** ** The "Calculate Emissions" handler *)

(** One element of [trip_data], [stay_data] and [meal_data]: the tuples
    the form builds, with the names the handler's loops give the fields. *)
Record trip : Type := {
  from_city : string;
  to_city : string;
  travel_mode : string;
  passengers : Z;
  distance : F
}.

Record stay : Type := {
  location : string;
  hotel_type : string;
  stay_nights : Z
}.

Record meal_day : Type := {
  breakfast : string;
  lunch : string;
  dinner : string;
  meal_nights : Z
}.

(** A row of [trip_details]. *)
Record trip_detail : Type := {
  td_From : string;
  td_To : string;
  td_Mode : string;
  td_Distance : F;
  td_Emission : F
}.

(** A row of [emissions_data] (the dict [entry]). *)
Record entry : Type := {
  Employee_ID : string;
  Name : string;
  Department : string;
  Purpose : string;
  Start_Date : string;
  End_Date : string;
  Transport_Emissions : F;
  Accommodation_Emissions : F;
  Meal_Emissions : F;
  Total_Emissions : F;
  Timestamp : string
}.

(** [st.session_state] *)
Record session_state : Type := {
  emissions_data : list entry;
  total_emissions : F;
  trip_details : list trip_detail;
  transport_emissions : F;
  accommodation_emissions : F;
  meal_emissions : F
}.

(** The block under [if "emissions_data" not in st.session_state]. *)
Definition init_state : session_state := {|
  emissions_data := [];
  total_emissions := f_of_Z 0;
  trip_details := [];
  transport_emissions := f_of_Z 0;
  accommodation_emissions := f_of_Z 0;
  meal_emissions := f_of_Z 0
|}.

(** What one press of the button reads besides the session state: the
    three lists, the sidebar fields (dates already formatted) and the
    clock. *)
Record submission : Type := {
  trip_data : list trip;
  stay_data : list stay;
  meal_data : list meal_day;
  employee_id : string;
  employee_name : string;
  department : string;
  travel_purpose : string;
  start_date : string;
  end_date : string;
  now : string
}.

(** The [if travel_mode.startswith("FLIGHT")] statement.  In the [else]
    branch a dict value would fail at the multiplication that follows. *)
Definition emission_factor (travel_mode : string) (distance : F) : result F :=
  if startswith travel_mode "FLIGHT" then
    get_flight_emission_factor distance travel_mode
  else
    e ← getitem EMISSION_FACTORS travel_mode;
    match e with
    | Flat f => Ok f
    | Tiered _ => Raise TypeError
    end.

(** [round((distance * emission_factor) / passengers, 2)] *)
Definition trip_emission (t : trip) : result F :=
  emission_factor ← emission_factor (travel_mode t) (distance t);
  q ← truediv (distance t * emission_factor) (passengers t);
  Ok (f_round2 q).

(** Body of the transport loop; the loop-carried variables are
    [transport_emissions] and [trip_details]. *)
Definition trip_body (acc : F * list trip_detail) (t : trip)
  : result (F * list trip_detail) :=
  trip_emission ← trip_emission t;
  Ok (acc.1 + trip_emission,
      (acc.2 ++ [ {| td_From := from_city t;
                     td_To := to_city t;
                     td_Mode := travel_mode t;
                     td_Distance := distance t;
                     td_Emission := trip_emission |} ])%list).

(** Body of the accommodation loop. *)
Definition stay_body (accommodation_emissions : F) (s : stay) : result F :=
  factor ← getitem HOTEL_EMISSION_FACTORS (hotel_type s);
  let stay_emission := factor * f_of_Z (stay_nights s) in
  Ok (accommodation_emissions + stay_emission).

(** [if meal != "None": daily_meal_emission += MEAL_EMISSION_FACTORS[meal]] *)
Definition add_meal (daily_meal_emission : F) (meal : string) : result F :=
  if decide (meal ≠ "None") then
    factor ← getitem MEAL_EMISSION_FACTORS meal;
    Ok (daily_meal_emission + factor)
  else Ok daily_meal_emission.

(** Body of the meal loop. *)
Definition meal_body (meal_emissions : F) (m : meal_day) : result F :=
  daily_meal_emission ← add_meal (f_of_Z 0) (breakfast m);
  daily_meal_emission ← add_meal daily_meal_emission (lunch m);
  daily_meal_emission ← add_meal daily_meal_emission (dinner m);
  Ok (meal_emissions + daily_meal_emission * f_of_Z (meal_nights m)).

(** Statements that run against the session state: an exception stops the
    run and leaves the state as the statements before it made it. *)
Definition handler (A : Type) : Type :=
  session_state → result A * session_state.

#[local] Instance handler_ret : MRet handler := λ A a s, (Ok a, s).
#[local] Instance handler_bind : MBind handler := λ A B f m s,
  match m s with
  | (Ok a, s') => f a s'
  | (Raise e, s') => (Raise e, s')
  end.

(** A computation on local variables only. *)
Definition local {A} (r : result A) : handler A := λ s, (r, s).

(** An assignment to attributes of [st.session_state]. *)
Definition assign (f : session_state → session_state) : handler unit :=
  λ s, (Ok tt, f s).

Definition set_transport_emissions (v : F) (s : session_state) :=
  {| emissions_data := emissions_data s;
     total_emissions := total_emissions s;
     trip_details := trip_details s;
     transport_emissions := v;
     accommodation_emissions := accommodation_emissions s;
     meal_emissions := meal_emissions s |}.

Definition set_accommodation_emissions (v : F) (s : session_state) :=
  {| emissions_data := emissions_data s;
     total_emissions := total_emissions s;
     trip_details := trip_details s;
     transport_emissions := transport_emissions s;
     accommodation_emissions := v;
     meal_emissions := meal_emissions s |}.

Definition set_meal_emissions (v : F) (s : session_state) :=
  {| emissions_data := emissions_data s;
     total_emissions := total_emissions s;
     trip_details := trip_details s;
     transport_emissions := transport_emissions s;
     accommodation_emissions := accommodation_emissions s;
     meal_emissions := v |}.

Definition set_trip_details (v : list trip_detail) (s : session_state) :=
  {| emissions_data := emissions_data s;
     total_emissions := total_emissions s;
     trip_details := v;
     transport_emissions := transport_emissions s;
     accommodation_emissions := accommodation_emissions s;
     meal_emissions := meal_emissions s |}.

(** [st.session_state.emissions_data.append(entry)] *)
Definition append_entry (e : entry) (s : session_state) :=
  {| emissions_data := (emissions_data s ++ [e])%list;
     total_emissions := total_emissions s;
     trip_details := trip_details s;
     transport_emissions := transport_emissions s;
     accommodation_emissions := accommodation_emissions s;
     meal_emissions := meal_emissions s |}.

(** [st.session_state.total_emissions += v] *)
Definition add_total_emissions (v : F) (s : session_state) :=
  {| emissions_data := emissions_data s;
     total_emissions := total_emissions s + v;
     trip_details := trip_details s;
     transport_emissions := transport_emissions s;
     accommodation_emissions := accommodation_emissions s;
     meal_emissions := meal_emissions s |}.

(** The body of [if st.button("Calculate Emissions", ...)], up to the
    success message: the three loops on local variables, then the
    assignments to the session state in the order of the script. *)
Definition calculate_emissions (inp : submission) : handler unit :=
  transport ← local (for_each trip_body (trip_data inp) (f_of_Z 0, []));
  let transport_emissions := transport.1 in
  let trip_details := transport.2 in
  accommodation_emissions ←
    local (for_each stay_body (stay_data inp) (f_of_Z 0));
  meal_emissions ← local (for_each meal_body (meal_data inp) (f_of_Z 0));
  let total_trip_emission :=
    transport_emissions + accommodation_emissions + meal_emissions in
  assign (set_transport_emissions transport_emissions);;
  assign (set_accommodation_emissions accommodation_emissions);;
  assign (set_meal_emissions meal_emissions);;
  assign (set_trip_details trip_details);;
  let entry := {|
    Employee_ID := employee_id inp;
    Name := employee_name inp;
    Department := department inp;
    Purpose := travel_purpose inp;
    Start_Date := start_date inp;
    End_Date := end_date inp;
    Transport_Emissions := f_round2 transport_emissions;
    Accommodation_Emissions := f_round2 accommodation_emissions;
    Meal_Emissions := f_round2 meal_emissions;
    Total_Emissions := f_round2 total_trip_emission;
    Timestamp := now inp
  |} in
  assign (append_entry entry);;
  assign (add_total_emissions total_trip_emission).

(** The session state after a series of presses of the button.  A press
    that raises shows the error and leaves the state as the handler left
    it. *)
Definition run_session (inps : list submission) (s : session_state)
  : session_state :=
  fold_left (λ s inp, (calculate_emissions inp s).2) inps s.

(** The form's trip tuple: the distance is computed from the two cities
    when the form is drawn. *)
Definition form_trip (from_city to_city travel_mode : string) (passengers : Z)
  : trip :=
  {| from_city := from_city; to_city := to_city; travel_mode := travel_mode;
     passengers := passengers;
     distance := calculate_distance from_city to_city |}.

End Program.

Arguments factor_entry F : clear implicits.
Arguments trip F : clear implicits.
Arguments trip_detail F : clear implicits.
Arguments entry F : clear implicits.
Arguments session_state F : clear implicits.
Arguments submission F : clear implicits.

(** ** Exact decimal arithmetic

    Numbers are canonical rationals and every operation is exact;
    [round(x, 2)] goes to the nearest hundredth, ties to even, as Python
    rounds the exact value of a [float]. *)

(** The integer nearest to [n / d], a tie going to the even neighbour. *)
Definition round_half_even (n : Z) (d : positive) : Z :=
  let q := n / Zpos d in
  let r := n mod Zpos d in
  match 2 * r ?= Zpos d with
  | Lt => q
  | Gt => q + 1
  | Eq => if Z.even q then q else q + 1
  end.

(** [round(x, 2)]: the multiple of 1/100 nearest to [x], ties to even. *)
Definition Qc_round2 (x : Qc) : Qc :=
  Q2Qc (round_half_even (Qnum x * 100) (Qden x) # 100).

#[global] Instance Exact : PyFloat Qc := {|
  f_of_Z := Qc_of_Z;
  f_dec m k := Q2Qc (m # Z.to_pos (10 ^ Z.of_nat k));
  f_add := Qcplus;
  f_sub := Qcminus;
  f_mul := Qcmult;
  f_div := Qcdiv;
  f_ltb x y := bool_decide (x < y)%Qc;
  f_round2 := Qc_round2
|}.

(** ** Binary64 arithmetic *)

(** [float(z)]: the double nearest to the integer [z]. *)
Definition ieee_of_Z (z : Z) : float :=
  SF2Prim (binary_normalize prec emax z 0 false).

(** A decimal literal: the double nearest to [m / 10^k], which the
    correctly rounded quotient of the two exact operands is. *)
Definition ieee_dec (m : Z) (k : nat) : float :=
  (ieee_of_Z m / ieee_of_Z (10 ^ Z.of_nat k))%float.

(** [round(x, 2)] on a double, as CPython computes it: the exact value of
    [x] is rounded to two decimals, ties to even, and the result is the
    double nearest to that decimal.  Zeros, infinities and nan are
    returned as they are. *)
Definition ieee_round2 (x : float) : float :=
  match Prim2SF x with
  | S754_finite s m e =>
      let n := match e with
               | Zneg p => round_half_even (Zpos m * 100) (2 ^ p)
               | _ => Zpos m * 100 * 2 ^ e
               end in
      match n with
      | Zpos n' =>
          SF2Prim (SFdiv prec emax (S754_finite s n' 0)
                                   (S754_finite false 100 0))
      | _ => SF2Prim (S754_zero s)
      end
  | _ => x
  end.

#[global] Instance IEEE : PyFloat float := {|
  f_of_Z := ieee_of_Z;
  f_dec := ieee_dec;
  f_add := PrimFloat.add;
  f_sub := PrimFloat.sub;
  f_mul := PrimFloat.mul;
  f_div := PrimFloat.div;
  f_ltb := PrimFloat.ltb;
  f_round2 := ieee_round2
|}.

(** An [int] converts to a [float] when the double nearest to it is
    finite; otherwise Python raises [OverflowError]. *)
Definition int_fits_float (n : Z) : bool :=
  negb (PrimFloat.is_infinity (ieee_of_Z n)).

(** [r] is [u] moved by at most half a hundredth and converted back to a
    double: for a finite [u] of magnitude [m * 2^e] there is a whole
    number [n] of hundredths with [|n/100 - m * 2^e| <= 0.005], and [r]
    is the correctly rounded quotient of [n] by [100] with the sign of
    [u].  Zeros, infinities and nan are kept. *)
Definition within_half_cent (u r : float) : Prop :=
  match Prim2SF u with
  | S754_finite s m e =>
      ∃ n : Z,
        (Qabs (inject_Z n / 100 - inject_Z (Zpos m) * 2 ^ e) <= 5 # 1000)%Q
        ∧ r = match n with
              | Zpos n' =>
                  SF2Prim (SFdiv prec emax (S754_finite s n' 0)
                                           (S754_finite false 100 0))
              | _ => SF2Prim (S754_zero s)
              end
  | _ => r = u
  end.

(** ** Reading the handler

    Functions of the inputs alone that name what the handler computes in
    its local variables; the lemmas below relate them to
    [calculate_emissions]. *)

(** The values of the runs that did not raise, in order. *)
Fixpoint oks {A} (rs : list (result A)) : list A :=
  match rs with
  | [] => []
  | Ok a :: rs' => a :: oks rs'
  | Raise _ :: rs' => oks rs'
  end.

(** Each element through [f], stopping at the first exception. *)
Fixpoint map_result {A B} (f : A → result B) (xs : list A) : result (list B) :=
  match xs with
  | [] => Ok []
  | x :: xs' => y ← f x; ys ← map_result f xs'; Ok (y :: ys)
  end.

Section Reading.
Context {F : Type} `{PyFloat F}.
Local Open Scope pyfloat_scope.

(** A sum accumulated left to right from [0], as the loops do. *)
Definition running_sum (xs : list F) : F := fold_left f_add xs (f_of_Z 0).

Definition detail_of (t : trip F) (e : F) : trip_detail F :=
  {| td_From := from_city t; td_To := to_city t; td_Mode := travel_mode t;
     td_Distance := distance t; td_Emission := e |}.

(** The quotient of a leg before [round]. *)
Definition trip_quotient (t : trip F) : result F :=
  f ← emission_factor (travel_mode t) (distance t);
  truediv (distance t * f) (passengers t).

(** The other policy, which the handler does not follow: sum the
    unrounded quotients and round once. *)
Definition round_after_sum (legs : list (trip F)) : result F :=
  qs ← map_result trip_quotient legs; Ok (f_round2 (running_sum qs)).

(** The handler's local variables once the three loops are through:
    [transport_emissions], [trip_details], [accommodation_emissions] and
    [meal_emissions]. *)
Record subtotals : Type := {
  sub_transport : F;
  sub_details : list (trip_detail F);
  sub_accommodation : F;
  sub_meal : F
}.

Definition loops (inp : submission F) : result subtotals :=
  transport ← for_each trip_body (trip_data inp) (f_of_Z 0, []);
  accommodation ← for_each stay_body (stay_data inp) (f_of_Z 0);
  meal ← for_each meal_body (meal_data inp) (f_of_Z 0);
  Ok {| sub_transport := transport.1; sub_details := transport.2;
        sub_accommodation := accommodation; sub_meal := meal |}.

(** [total_trip_emission], before any rounding. *)
Definition unrounded_total (r : subtotals) : F :=
  sub_transport r + sub_accommodation r + sub_meal r.

(** The dict [entry] the handler builds. *)
Definition entry_of (inp : submission F) (r : subtotals) : entry F :=
  {| Employee_ID := employee_id inp;
     Name := employee_name inp;
     Department := department inp;
     Purpose := travel_purpose inp;
     Start_Date := start_date inp;
     End_Date := end_date inp;
     Transport_Emissions := f_round2 (sub_transport r);
     Accommodation_Emissions := f_round2 (sub_accommodation r);
     Meal_Emissions := f_round2 (sub_meal r);
     Total_Emissions := f_round2 (unrounded_total r);
     Timestamp := now inp |}.

(** The session state after a press that went through. *)
Definition committed (inp : submission F) (r : subtotals)
  (s : session_state F) : session_state F :=
  {| emissions_data := (emissions_data s ++ [entry_of inp r])%list;
     total_emissions := total_emissions s + unrounded_total r;
     trip_details := sub_details r;
     transport_emissions := sub_transport r;
     accommodation_emissions := sub_accommodation r;
     meal_emissions := sub_meal r |}.

(** What a submission adds to the history and to the running total,
    when its loops go through. *)
Definition submission_entry (inp : submission F) : result (entry F) :=
  r ← loops inp; Ok (entry_of inp r).

Definition submission_total (inp : submission F) : result F :=
  r ← loops inp; Ok (unrounded_total r).

End Reading.

Arguments subtotals F : clear implicits.

(** ** The distance as the specification gives it *)

Section GeoSpec.
Context {F : Type} `{PyFloat F}.
Variable libm : LibM F.
Local Open Scope pyfloat_scope.

(** [sin²(x/2)] *)
Definition sin2_half (x : F) : F :=
  m_pow libm (m_sin libm (f_div x (f_of_Z 2))) 2.

(** The algorithm of the specification's GeoDistance, on two points in
    decimal degrees converted to radians:
    [a = sin²(Δlat/2) + cos(lat1)·cos(lat2)·sin²(Δlon/2)],
    [c = 2·asin(√a)], [distance = c × 6371]. *)
Definition great_circle_km (lat1 lon1 lat2 lon2 : F) : F :=
  let phi1 := m_radians libm lat1 in
  let phi2 := m_radians libm lat2 in
  let dlat := phi2 - phi1 in
  let dlon := m_radians libm lon2 - m_radians libm lon1 in
  let a := sin2_half dlat
           + m_cos libm phi1 * m_cos libm phi2 * sin2_half dlon in
  let c := f_of_Z 2 * m_asin libm (m_sqrt libm a) in
  c * f_of_Z 6371.

End GeoSpec.

(** ** The form, the sidebar and the Reports tab *)

(** [x == 0] on a number. *)
Class PyZero (F : Type) : Type := f_is_zero : F → bool.

Global Hint Mode PyZero ! : typeclass_instances.

#[global] Instance Exact_zero : PyZero Qc :=
  λ x, bool_decide (x = Qc_of_Z 0).

(** Both zeros of binary64 compare equal to 0, nan does not. *)
#[global] Instance IEEE_zero : PyZero float :=
  λ x, PrimFloat.eqb x (ieee_of_Z 0).

Section Form.
Context {F : Type} `{PyFloat F} `{PyZero F}.
Local Open Scope pyfloat_scope.

(** [x / y] for a [float] divisor: Python raises on a zero divisor. *)
Definition truediv_float (x y : F) : result F :=
  if f_is_zero y then Raise ZeroDivisionError else Ok (f_div x y).

(** The three dict literals as their items, in the order of the source:
    [d.keys()] iterates in that order. *)
Definition EMISSION_FACTORS_items : list (string * factor_entry F) :=
  [ ("FLIGHT - ECONOMY", Tiered (list_to_map [
        ("short_haul", f_dec 15 2);
        ("medium_haul", f_dec 12 2);
        ("long_haul", f_dec 9 2)]));
    ("FLIGHT - BUSINESS", Tiered (list_to_map [
        ("short_haul", f_dec 30 2);
        ("medium_haul", f_dec 24 2);
        ("long_haul", f_dec 18 2)]));
    ("FLIGHT - FIRST", Tiered (list_to_map [
        ("short_haul", f_dec 45 2);
        ("medium_haul", f_dec 36 2);
        ("long_haul", f_dec 27 2)]));
    ("TRAIN - STANDARD", Flat (f_dec 35 3));
    ("TRAIN - HIGH SPEED", Flat (f_dec 5 2));
    ("BUS - STANDARD", Flat (f_dec 4 2));
    ("BUS - COACH", Flat (f_dec 3 2));
    ("CAR - GASOLINE", Flat (f_dec 12 2));
    ("CAR - DIESEL", Flat (f_dec 14 2));
    ("CAR - HYBRID", Flat (f_dec 8 2));
    ("CAR - ELECTRIC", Flat (f_dec 5 2));
    ("TAXI", Flat (f_dec 15 2));
    ("FERRY", Flat (f_dec 19 2)) ].

Definition HOTEL_EMISSION_FACTORS_items : list (string * F) :=
  [ ("BUDGET", f_dec 150 1);
    ("MID-RANGE", f_dec 250 1);
    ("LUXURY", f_dec 400 1) ].

Definition MEAL_EMISSION_FACTORS_items : list (string * F) :=
  [ ("VEGAN", f_dec 15 1);
    ("VEGETARIAN", f_dec 25 1);
    ("OMNIVORE", f_dec 40 1) ].

(** [isinstance(v, (int, float))] on a value of [EMISSION_FACTORS]. *)
Definition is_number (v : factor_entry F) : bool :=
  match v with
  | Flat _ => true
  | Tiered _ => false
  end.

(** The options of the "Mode of Transport" select box:
    [[mode for mode in EMISSION_FACTORS.keys()
      if isinstance(EMISSION_FACTORS[mode], (int, float))
         or mode.startswith("FLIGHT")]]. *)
Definition mode_options : list string :=
  (List.filter (λ kv, is_number kv.2 || startswith kv.1 "FLIGHT")
               EMISSION_FACTORS_items).*1.

(** [list(HOTEL_EMISSION_FACTORS.keys())] *)
Definition hotel_options : list string := HOTEL_EMISSION_FACTORS_items.*1.

(** [list(MEAL_EMISSION_FACTORS.keys()) + ["None"]] *)
Definition meal_options : list string :=
  (MEAL_EMISSION_FACTORS_items.*1 ++ ["None"])%list.

(** What the widgets let through: a mode among the options and at least
    one passenger ([min_value=1]); a hotel type among the options and at
    least one night; three meals among the options. *)
Definition form_trip_ok (t : trip F) : Prop :=
  travel_mode t ∈ mode_options ∧ (1 ≤ passengers t)%Z.

Definition form_stay_ok (s : stay) : Prop :=
  hotel_type s ∈ hotel_options ∧ (1 ≤ stay_nights s)%Z.

Definition form_meal_ok (m : meal_day) : Prop :=
  breakfast m ∈ meal_options ∧ lunch m ∈ meal_options
  ∧ dinner m ∈ meal_options ∧ (1 ≤ meal_nights m)%Z.

Definition form_submission (inp : submission F) : Prop :=
  Forall form_trip_ok (trip_data inp)
  ∧ Forall form_stay_ok (stay_data inp)
  ∧ Forall form_meal_ok (meal_data inp).

(** The counts of a submission all convert to a [float]. *)
Definition counts_fit_float (inp : submission F) : Prop :=
  Forall (λ t, int_fits_float (passengers t)) (trip_data inp)
  ∧ Forall (λ s, int_fits_float (stay_nights s)) (stay_data inp)
  ∧ Forall (λ m, int_fits_float (meal_nights m)) (meal_data inp).

(** One "Stay" block of the second tab: the widgets' values. *)
Record stay_row : Type := {
  row_location : string;
  row_hotel_type : string;
  row_nights : Z;
  row_breakfast : string;
  row_lunch : string;
  row_dinner : string
}.

(** The loop of the second tab: each block appends one tuple to
    [stay_data] and one to [meal_data], both with the block's [nights]. *)
Definition form_stays (rows : list stay_row) : list stay * list meal_day :=
  fold_left
    (λ acc row,
       ((acc.1 ++ [ {| location := row_location row;
                       hotel_type := row_hotel_type row;
                       stay_nights := row_nights row |} ])%list,
        (acc.2 ++ [ {| breakfast := row_breakfast row;
                       lunch := row_lunch row;
                       dinner := row_dinner row;
                       meal_nights := row_nights row |} ])%list))
    rows ([], []).

(** One wedge of the pie: [x / total * 100]. *)
Definition percent (x total : F) : result F :=
  q ← truediv_float x total; Ok (q * f_of_Z 100).

(** [create_emissions_chart], up to the list [sizes] it hands to
    [ax.pie]; the drawing is matplotlib's.  [sum] adds from [0]. *)
Definition create_emissions_chart
  (transport_data accommodation_data meal_data : F) : result (list F) :=
  let total := running_sum [transport_data; accommodation_data; meal_data] in
  s1 ← percent transport_data total;
  s2 ← percent accommodation_data total;
  s3 ← percent meal_data total;
  Ok [s1; s2; s3].

(** What the Reports tab shows: the three rounded metrics, the sizes of
    the breakdown pie and the history table. *)
Record report : Type := {
  metric_transport : F;
  metric_accommodation : F;
  metric_meal : F;
  breakdown : list F;
  history : list (entry F)
}.

(** The block [with tab3], without the per-mode bar chart and the
    download link.  With no history it shows a notice and computes
    nothing. *)
Definition reports_tab (s : session_state F) : result (option report) :=
  match emissions_data s with
  | [] => Ok None
  | _ :: _ =>
      sizes ← create_emissions_chart (transport_emissions s)
                 (accommodation_emissions s) (meal_emissions s);
      Ok (Some {| metric_transport := f_round2 (transport_emissions s);
                  metric_accommodation :=
                    f_round2 (accommodation_emissions s);
                  metric_meal := f_round2 (meal_emissions s);
                  breakdown := sizes;
                  history := emissions_data s |})
  end.

(** The figure under "Last Calculation" in the sidebar, shown once the
    history is not empty. *)
Definition sidebar_last_calculation (s : session_state F) : option F :=
  match emissions_data s with
  | [] => None
  | _ :: _ => Some (f_round2 (total_emissions s))
  end.

End Form.

Arguments report F : clear implicits.

(** ** Two-decimal values, sample inputs *)

(** [x] is a whole number of hundredths. *)
Definition two_decimals (x : Qc) : Prop := ∃ k : Z, x = Q2Qc (k # 100).

Section Samples.
Context {F : Type} `{PyFloat F}.

Definition road_trip (mode : string) (passengers : Z) (distance : F) : trip F :=
  {| from_city := "DELHI"; to_city := "MUMBAI"; travel_mode := mode;
     passengers := passengers; distance := distance |}.

Definition press (trips : list (trip F)) (stays : list stay)
  (meals : list meal_day) (clock : string) : submission F :=
  {| trip_data := trips; stay_data := stays; meal_data := meals;
     employee_id := "E-1"; employee_name := "A. Traveller";
     department := "Finance"; travel_purpose := "Conference";
     start_date := "2025-03-01"; end_date := "2025-03-08";
     now := clock |}.

(** Two bus legs of 2.5 km and 5 km: 0.1 and 0.2 kg. *)
Definition two_bus_legs : submission F :=
  press [road_trip "BUS - STANDARD" 1 (f_dec 25 1);
         road_trip "BUS - STANDARD" 1 (f_dec 50 1)] [] []
        "2025-03-01 09:00:00".

(** Two bus legs of 100 m: 0.004 kg each before rounding. *)
Definition two_short_legs : list (trip F) :=
  [road_trip "BUS - STANDARD" 1 (f_dec 1 1);
   road_trip "BUS - STANDARD" 1 (f_dec 1 1)].

(** A car leg for four, two nights mid-range, vegan breakfast and
    omnivore lunch on three days. *)
Definition business_trip : submission F :=
  press [road_trip "CAR - GASOLINE" 4 (f_of_Z 1000)]
        [{| location := "MUMBAI"; hotel_type := "MID-RANGE";
            stay_nights := 2 |}]
        [{| breakfast := "VEGAN"; lunch := "OMNIVORE"; dinner := "None";
            meal_nights := 3 |}]
        "2025-03-08 18:30:00".

End Samples.

(** A stand-in for libm on the rationals, with the first-order
    approximations of [sin] and [asin]. *)
Definition linear_libm : LibM Qc :=
  {| m_radians x := x;
     m_sin x := x;
     m_cos _ := Qc_of_Z 1;
     m_asin x := x;
     m_sqrt x := x;
     m_pow x n := Qcpower x (Z.to_nat n) |}.

(** More sample inputs: a press with a hotel tier that is not in the
    table, and a press whose only leg has distance 0. *)
Definition hostel_press : submission Qc :=
  press [road_trip "TAXI" 1 (Qc_of_Z 12)]
        [{| location := "PARIS"; hotel_type := "HOSTEL"; stay_nights := 1 |}]
        [] "2025-03-02 10:00:00".

Section MoreSamples.
Context {F : Type} `{PyFloat F}.

Definition still_press : submission F :=
  press [road_trip "TAXI" 1 (f_of_Z 0)] [] [] "2025-03-03 08:00:00".

Definition leg (a b mode : string) (passengers : Z) (distance : F) : trip F :=
  {| from_city := a; to_city := b; travel_mode := mode;
     passengers := passengers; distance := distance |}.

(** Three legs, and one luxury stay of 6e13 nights without meals: the
    transport subtotal is just below 367.75 in binary64 and the
    accommodation subtotal is 2.4e15, where doubles are 0.5 apart. *)
Definition long_stay : submission F :=
  press [leg "VELLORE" "HONG KONG" "TAXI" 2 (f_dec 384702 2);
         leg "DELHI" "HYDERABAD" "CAR - DIESEL" 3 (f_dec 125539 2);
         leg "NEW YORK" "TORONTO" "FLIGHT - ECONOMY" 4 (f_dec 55044 2)]
        [{| location := "PARIS"; hotel_type := "LUXURY";
            stay_nights := 60000000000000 |}]
        [{| breakfast := "None"; lunch := "None"; dinner := "None";
            meal_nights := 60000000000000 |}]
        "2025-03-04 09:00:00".

(** Two rail legs: 61.45 kg and 40.18 kg. *)
Definition chennai_delhi : submission F :=
  press [leg "CHENNAI" "DELHI" "TRAIN - STANDARD" 1 (f_dec 175580 2)] [] []
        "2025-03-05 09:00:00".

Definition delhi_mumbai : submission F :=
  press [leg "DELHI" "MUMBAI" "TRAIN - STANDARD" 1 (f_dec 114809 2)] [] []
        "2025-03-06 09:00:00".

End MoreSamples.

Local Open Scope pyfloat_scope.

(** * Properties *)

(** ** The exception monads *)

Lemma result_bind_Ok {A B} (f : A → result B) (r : result A) (b : B) :
  r ≫= f = Ok b ↔ ∃ a, r = Ok a ∧ f a = Ok b.
Proof.
  destruct r as [a|e]; simpl; split.
  - eauto.
  - intros (a' & [= ->] & Hf). exact Hf.
  - discriminate.
  - intros (a' & [=] & _).
Qed.

Lemma getitem_list_to_map {V} (l : list (string * V)) (k : string) (v : V) :
  getitem (list_to_map l) k = Ok v → (k, v) ∈ l.
Proof.
  unfold getitem. destruct (_ !! k) as [v'|] eqn:E; [|done].
  intros [= <-]. by apply elem_of_list_to_map_2.
Qed.

(** ** The handler, statement by statement *)

Section Handler.
Context {F : Type} `{PyFloat F}.

(** The handler either raises in one of its loops, before its first
    assignment to the session state, or runs to the end. *)
Lemma calculate_emissions_unfold (inp : submission F) (s : session_state F) :
  calculate_emissions inp s =
    match loops inp with
    | Ok r => (Ok tt, committed inp r s)
    | Raise e => (Raise e, s)
    end.
Proof.
  unfold calculate_emissions, loops, local.
  destruct (for_each trip_body _ _) as [[T ds]|e]; [|reflexivity].
  destruct (for_each stay_body _ _) as [A|e]; [|reflexivity].
  destruct (for_each meal_body _ _) as [M|e]; reflexivity.
Qed.

(** The transport loop sums the legs' emissions in order, and records one
    row for each. *)
Lemma for_each_trip_body (legs : list (trip F)) (acc : F * list (trip_detail F)) :
  for_each trip_body legs acc =
    es ← map_result trip_emission legs;
    Ok (fold_left f_add es acc.1, (acc.2 ++ zip_with detail_of legs es)%list).
Proof.
  revert acc.
  induction legs as [|t legs IH]; intros [T ds]; cbn [for_each map_result].
  - simpl. by rewrite app_nil_r.
  - destruct (trip_emission t) as [e|x] eqn:E.
    + assert (trip_body (T, ds) t = Ok (T + e, (ds ++ [detail_of t e])%list))
        as -> by (unfold trip_body; rewrite E; reflexivity).
      cbn [mbind result_bind]. rewrite IH.
      destruct (map_result trip_emission legs) as [es|x]; [|reflexivity].
      cbn. by rewrite <- app_assoc.
    + assert (trip_body (T, ds) t = Raise x) as ->
        by (unfold trip_body; rewrite E; reflexivity).
      reflexivity.
Qed.

Lemma trip_emission_quotient (t : trip F) :
  trip_emission t = q ← trip_quotient t; Ok (f_round2 q).
Proof.
  unfold trip_emission, trip_quotient.
  by destruct (emission_factor _ _).
Qed.

Lemma loops_transport (inp : submission F) (r : subtotals F) :
  loops inp = Ok r →
  ∃ es, map_result trip_emission (trip_data inp) = Ok es
        ∧ sub_transport r = running_sum es
        ∧ sub_details r = zip_with detail_of (trip_data inp) es.
Proof.
  unfold loops. rewrite for_each_trip_body.
  destruct (map_result _ _) as [es|x]; [|done]. cbn [mbind result_bind].
  intros (A & _ & (M & _ & [= <-])%result_bind_Ok)%result_bind_Ok.
  by exists es.
Qed.

Lemma first_class_factor (d : F) :
  flight_factor (F:=F) "FLIGHT - FIRST" (flight_category d) =
    Ok (if d <? f_of_Z 800 then f_dec 45 2
        else if d <? f_of_Z 3700 then f_dec 36 2
        else f_dec 27 2).
Proof.
  unfold flight_category. repeat case_match; reflexivity.
Qed.

Lemma submission_of_loops (inp : submission F) :
  match loops inp with
  | Ok r => submission_entry inp = Ok (entry_of inp r)
            ∧ submission_total inp = Ok (unrounded_total r)
  | Raise x => submission_entry inp = Raise x
               ∧ submission_total inp = Raise x
  end.
Proof.
  unfold submission_entry, submission_total. by destruct (loops inp).
Qed.

Lemma run_session_cons (inp : submission F) inps (s : session_state F) :
  run_session (inp :: inps) s =
    run_session inps
      match loops inp with
      | Ok r => committed inp r s
      | Raise _ => s
      end.
Proof.
  unfold run_session. cbn [fold_left]. rewrite calculate_emissions_unfold.
  by destruct (loops inp).
Qed.

(** The history and the running total after any series of presses. *)
Lemma run_session_spec (inps : list (submission F)) (s : session_state F) :
  emissions_data (run_session inps s) =
    (emissions_data s ++ oks (map submission_entry inps))%list
  ∧ total_emissions (run_session inps s) =
    fold_left f_add (oks (map submission_total inps)) (total_emissions s).
Proof.
  revert s. induction inps as [|inp inps IH]; intros s.
  - split; [by rewrite app_nil_r | done].
  - rewrite run_session_cons. cbn [map oks].
    pose proof (submission_of_loops inp) as Hinp.
    destruct (loops inp) as [r|x]; destruct Hinp as [-> ->].
    + destruct (IH (committed inp r s)) as [-> ->].
      cbn [committed emissions_data total_emissions fold_left].
      split; [by rewrite <- app_assoc | done].
    + apply IH.
Qed.

Lemma elem_of_oks_submission_entry (inps : list (submission F)) (e : entry F) :
  e ∈ oks (map submission_entry inps) →
  ∃ inp r, inp ∈ inps ∧ loops inp = Ok r ∧ e = entry_of inp r.
Proof.
  induction inps as [|inp inps IH]; cbn [map oks].
  - by intros ?%elem_of_nil.
  - pose proof (submission_of_loops inp) as Hinp.
    destruct (loops inp) as [r|x] eqn:E; destruct Hinp as [-> _].
    + intros [->|Hin]%elem_of_cons.
      * exists inp, r. split; [left|done].
      * destruct (IH Hin) as (inp' & r' & ? & ? & ?).
        exists inp', r'. split; [by right|done].
    + intros Hin. destruct (IH Hin) as (inp' & r' & ? & ? & ?).
      exists inp', r'. split; [by right|done].
Qed.

Lemma recorded_totals (inps : list (submission F)) :
  map Total_Emissions (oks (map submission_entry inps)) =
  map f_round2 (oks (map submission_total inps)).
Proof.
  induction inps as [|inp inps IH]; [done|]. cbn [map oks].
  pose proof (submission_of_loops inp) as Hinp.
  destruct (loops inp) as [r|x]; destruct Hinp as [-> ->]; [|done].
  cbn [map]. by rewrite IH.
Qed.

Lemma length_oks_entries (inps : list (submission F)) :
  length (oks (map submission_entry inps)) = length (oks (map loops inps)).
Proof.
  induction inps as [|inp inps IH]; [done|]. cbn [map oks].
  pose proof (submission_of_loops inp) as Hinp.
  destruct (loops inp) as [r|x]; destruct Hinp as [-> _]; [|done].
  cbn [length]. by rewrite IH.
Qed.

(** C1 (as amended): with the factor of the leg's mode resolved to [f], a
    leg with at least one passenger emits
    [round(distance * f / max(passengers, 1), 2)], the divisor being the
    passenger count itself; a leg with 0 passengers meets no guard and
    raises [ZeroDivisionError]. *)
Theorem leg_emission_formula (t : trip F) (f : F) :
  emission_factor (travel_mode t) (distance t) = Ok f →
  ((1 ≤ passengers t)%Z →
     trip_emission t =
       Ok (f_round2 (f_div (distance t * f)
                           (f_of_Z (Z.max (passengers t) 1)))))
  ∧ (passengers t = 0%Z → trip_emission t = Raise ZeroDivisionError).
Proof.
  intros Hf. unfold trip_emission, truediv. rewrite Hf. cbn [mbind result_bind].
  split; intros Hp.
  - rewrite Z.max_l by lia. case_decide; [lia | reflexivity].
  - case_decide; [reflexivity | contradiction].
Qed.

(** C2 (as amended): a mode that does not start with FLIGHT and is not a
    key of the factor table raises [KeyError]; a mode that starts with
    FLIGHT and is neither the economy nor the business class, a key of
    the table or not, gets the first-class factor of the distance band
    and no error. *)
Theorem unknown_mode_resolution (mode : string) (d : F) :
  (startswith mode "FLIGHT" = false →
   EMISSION_FACTORS (F:=F) !! mode = None →
   emission_factor mode d = Raise (KeyError mode))
  ∧ (startswith mode "FLIGHT" = true →
     mode ≠ "FLIGHT - ECONOMY" → mode ≠ "FLIGHT - BUSINESS" →
     emission_factor mode d =
       Ok (if d <? f_of_Z 800 then f_dec 45 2
           else if d <? f_of_Z 3700 then f_dec 36 2
           else f_dec 27 2)).
Proof.
  unfold emission_factor. split.
  - intros -> Hnone. unfold getitem. by rewrite Hnone.
  - intros -> Heco Hbus. unfold get_flight_emission_factor.
    rewrite !decide_False by done. apply first_class_factor.
Qed.

(** C9: a press of the button is all or nothing for the session state.
    Either the handler raises and the state is the one it started from,
    or it returns, and then one entry has been appended to the history,
    the running total has grown by the submission's total, and the four
    fields of the last calculation have been replaced. *)
Theorem submission_atomic (inp : submission F) (s : session_state F) :
  (∃ e, calculate_emissions inp s = (Raise e, s))
  ∨ (∃ r s',
      loops inp = Ok r
      ∧ calculate_emissions inp s = (Ok tt, s')
      ∧ emissions_data s' = (emissions_data s ++ [entry_of inp r])%list
      ∧ total_emissions s' = total_emissions s + unrounded_total r
      ∧ trip_details s' = sub_details r
      ∧ transport_emissions s' = sub_transport r
      ∧ accommodation_emissions s' = sub_accommodation r
      ∧ meal_emissions s' = sub_meal r).
Proof.
  rewrite calculate_emissions_unfold.
  destruct (loops inp) as [r|e].
  - right. exists r, (committed inp r s). by repeat split.
  - left. by exists e.
Qed.

End Handler.

(** ** GeoDistance *)

Section Geo.
Context {F : Type} `{PyFloat F}.
Variable libm : LibM F.

(** C7: when either name is missing from the registry the distance is the
    number 0 and nothing is raised; when both are present it is the
    great-circle distance of their coordinates by the haversine formula
    with radius 6371 km, as the specification writes it, rounded to two
    decimals. *)
Theorem calculate_distance_cases (from_city to_city : string) :
  (CITY_COORDINATES (F:=F) !! from_city = None
   ∨ CITY_COORDINATES (F:=F) !! to_city = None →
   calculate_distance libm from_city to_city = f_of_Z 0)
  ∧ (∀ lat1 lon1 lat2 lon2 : F,
       CITY_COORDINATES !! from_city = Some (lat1, lon1) →
       CITY_COORDINATES !! to_city = Some (lat2, lon2) →
       calculate_distance libm from_city to_city =
         f_round2 (great_circle_km libm lat1 lon1 lat2 lon2)).
Proof.
  unfold calculate_distance. split.
  - intros [-> | ->]; [reflexivity | by case_match].
  - by intros lat1 lon1 lat2 lon2 -> ->.
Qed.

End Geo.

(** ** Properties of exact decimal arithmetic *)

Lemma round_half_even_exact (k : Z) (d : positive) :
  round_half_even (k * Zpos d) d = k.
Proof.
  unfold round_half_even.
  rewrite Z.mod_mul, Z.div_mul by lia. reflexivity.
Qed.

(** Rounding to two decimals leaves a two-decimal value alone. *)
Lemma Qc_round2_two_decimals (x : Qc) : two_decimals x → Qc_round2 x = x.
Proof.
  intros [k ->]. unfold Qc_round2.
  assert (Hq : (Q2Qc (k # 100) : Q) == k # 100) by apply Qred_correct.
  unfold Qeq in Hq. cbn [Qnum Qden] in Hq.
  rewrite Hq, round_half_even_exact. reflexivity.
Qed.

Lemma two_decimals_of_Z (n : Z) : two_decimals (Qc_of_Z n).
Proof.
  exists (n * 100)%Z. apply Qc_is_canon. cbn [this Qc_of_Z Q2Qc].
  rewrite Qred_correct. unfold Qeq. cbn. lia.
Qed.

Lemma Qc_ltb_true (x y : Qc) : (x <? y) = true ↔ (x < y)%Qc.
Proof. apply bool_decide_eq_true. Qed.

Lemma Qc_ltb_false (x y : Qc) : (x <? y) = false ↔ (y ≤ x)%Qc.
Proof.
  unfold f_ltb; cbn. rewrite bool_decide_eq_false. symmetry. apply Qcle_ngt.
Qed.

(** A result is the value it evaluates to. *)
Lemma result_Qc_eq (r : result Qc) (y : Qc) :
  match r with
  | Ok x => Qeq_bool x y = true
  | Raise _ => False
  end → r = Ok y.
Proof.
  destruct r as [x|e]; [|done].
  intros Hxy%Qeq_bool_iff. f_equal. by apply Qc_is_canon.
Qed.

(** *** Case analysis on the entries of a table *)

Ltac table_cases Hk tac :=
  repeat (apply elem_of_cons in Hk as [Hk|Hk]; [tac|]);
  try by apply elem_of_nil in Hk.

(** ** Rounding to two decimals in binary64 *)

(** [round_half_even n d] is within one half of [n / d]. *)
Lemma round_half_even_bounds (n : Z) (d : positive) :
  (2 * n - Zpos d ≤ 2 * round_half_even n d * Zpos d ≤ 2 * n + Zpos d)%Z.
Proof.
  unfold round_half_even.
  pose proof (Z.div_mod n (Zpos d) ltac:(lia)) as Hn.
  pose proof (Z.mod_pos_bound n (Zpos d) ltac:(lia)) as Hr.
  destruct (Z.compare_spec (2 * (n mod Zpos d)) (Zpos d));
    [destruct (Z.even _)| |]; nia.
Qed.

(** [round(x, 2)] on a double moves its value by at most half a
    hundredth before the result is converted back to a double. *)
Lemma ieee_round2_half_cent (x : float) : within_half_cent x (ieee_round2 x).
Proof.
  unfold within_half_cent, ieee_round2.
  destruct (Prim2SF x) as [s| | |s m e]; try reflexivity.
  eexists. split; [|reflexivity].
  destruct e as [|p|p].
  - rewrite Z.pow_0_r, Z.mul_1_r, inject_Z_mult. cbn [Qpower].
    change (inject_Z 100) with 100%Q.
    assert (E : (inject_Z (Z.pos m) * 100 / 100 - inject_Z (Z.pos m) * 1
                 == 0)%Q) by field.
    rewrite E. discriminate.
  - rewrite !inject_Z_mult, Zpower_Qpower by lia.
    change (inject_Z 2) with 2%Q. change (inject_Z 100) with 100%Q.
    assert (E : (inject_Z (Z.pos m) * 100 * 2 ^ Z.pos p / 100
                 - inject_Z (Z.pos m) * 2 ^ Z.pos p == 0)%Q) by field.
    rewrite E. discriminate.
  - pose proof (round_half_even_bounds (Z.pos m * 100) (2 ^ p)) as Hb.
    set (n := round_half_even _ _) in *.
    assert (HP : (0 < inject_Z (Z.pos (2 ^ p)))%Q).
    { change 0%Q with (inject_Z 0). rewrite <- Zlt_Qlt. lia. }
    assert (Hpow : (2 ^ Z.neg p == / inject_Z (Z.pos (2 ^ p)))%Q).
    { change (Z.neg p) with (- Z.pos p)%Z. rewrite Qpower_opp.
      apply Qinv_comp. rewrite Pos2Z.inj_pow, Zpower_Qpower by lia.
      reflexivity. }
    rewrite Hpow. destruct Hb as [Hlo Hhi].
    rewrite Zle_Qle in Hlo. rewrite Zle_Qle in Hhi.
    unfold Z.sub in Hlo.
    rewrite inject_Z_plus, inject_Z_opp, !inject_Z_mult in Hlo.
    rewrite inject_Z_plus, !inject_Z_mult in Hhi.
    change (inject_Z 2) with 2%Q in *. change (inject_Z 100) with 100%Q in *.
    set (P := inject_Z (Z.pos (2 ^ p))) in *.
    set (M := inject_Z (Z.pos m)) in *. set (N := inject_Z n) in *.
    apply Qabs_Qle_condition.
    assert (Hinv : (P * / P == 1)%Q) by (apply Qmult_inv_r; lra).
    set (I := (/ P)%Q) in *.
    assert (HI : (0 < I)%Q) by (apply Qinv_lt_0_compat; exact HP).
    unfold Qdiv. change (/ 100)%Q with (1 # 100)%Q.
    assert (E1 : ((2 * N * P - (2 * (M * 100) - P)) * I
                  == 2 * N - 200 * (M * I) + 1)%Q).
    { transitivity (2 * N * (P * I) - 200 * (M * I) + P * I)%Q; [ring|].
      rewrite Hinv. ring. }
    assert (E2 : ((2 * (M * 100) + P - 2 * N * P) * I
                  == 200 * (M * I) + 1 - 2 * N)%Q).
    { transitivity (200 * (M * I) + P * I - 2 * N * (P * I))%Q; [ring|].
      rewrite Hinv. ring. }
    assert (H1 : (0 <= (2 * N * P - (2 * (M * 100) - P)) * I)%Q)
      by (apply Qmult_le_0_compat; lra).
    assert (H2 : (0 <= (2 * (M * 100) + P - 2 * N * P) * I)%Q)
      by (apply Qmult_le_0_compat; lra).
    rewrite E1 in H1. rewrite E2 in H2.
    set (MI := (M * I)%Q) in *. split; lra.
Qed.

(** ** The ledger *)

(** C3 (as amended): every entry of the history comes from a press whose
    loops went through with subtotals [T], [A] and [M]; it records
    [round(T, 2)], [round(A, 2)] and [round(M, 2)] as its subtotals and
    [round(T + A + M, 2)], computed from the unrounded subtotals, as its
    total.  Where rounding leaves the three subtotals as they are, the
    total is the rounding of the sum of the recorded subtotals. *)
Theorem recorded_total_is_rounded_sum {F : Type} `{PyFloat F}
  (inps : list (submission F)) (e : entry F) :
  e ∈ emissions_data (run_session inps init_state) →
  ∃ inp r,
    inp ∈ inps ∧ loops inp = Ok r
    ∧ Transport_Emissions e = f_round2 (sub_transport r)
    ∧ Accommodation_Emissions e = f_round2 (sub_accommodation r)
    ∧ Meal_Emissions e = f_round2 (sub_meal r)
    ∧ Total_Emissions e
      = f_round2 (sub_transport r + sub_accommodation r + sub_meal r)
    ∧ (f_round2 (sub_transport r) = sub_transport r →
       f_round2 (sub_accommodation r) = sub_accommodation r →
       f_round2 (sub_meal r) = sub_meal r →
       Total_Emissions e =
         f_round2 (Transport_Emissions e + Accommodation_Emissions e
                   + Meal_Emissions e)).
Proof.
  rewrite (proj1 (run_session_spec inps init_state)).
  cbn [init_state emissions_data app].
  intros (inp & r & Hin & Hr & ->)%elem_of_oks_submission_entry.
  exists inp, r. repeat split; try done.
  cbn [entry_of Total_Emissions Transport_Emissions Accommodation_Emissions
       Meal_Emissions]. unfold unrounded_total. by intros -> -> ->.
Qed.

Lemma recorded_total_is_rounded_sum_witness :
  ∃ e : entry float,
    e ∈ emissions_data (run_session [long_stay] init_state)
    ∧ ∃ inp r,
        inp ∈ [long_stay (F:=float)] ∧ loops inp = Ok r
        ∧ Transport_Emissions e = f_round2 (sub_transport r)
        ∧ Accommodation_Emissions e = f_round2 (sub_accommodation r)
        ∧ Meal_Emissions e = f_round2 (sub_meal r)
        ∧ Total_Emissions e
          = f_round2 (sub_transport r + sub_accommodation r + sub_meal r).
Proof.
  assert (Hin : ∃ e : entry float,
            e ∈ emissions_data (run_session [long_stay] init_state)).
  { rewrite (proj1 (run_session_spec _ _)). eexists. vm_compute. left. }
  destruct Hin as [e Hin]. exists e. split; [exact Hin|].
  destruct (recorded_total_is_rounded_sum [long_stay] e Hin)
    as (inp & r & H1 & H2 & H3 & H4 & H5 & H6 & _).
  exists inp, r. repeat split; assumption.
Defined.

(** The total of an entry is not always the rounding of the sum of the
    subtotals recorded beside it.  In binary64, for the widget-valid
    submission [long_stay], the entry records the subtotals 367.75,
    2400000000000000 and 0 and the total 2400000000000367.5, computed
    from the transport subtotal 367.74999999999994; the sum of the
    recorded subtotals is a tie between two doubles and rounds to
    2400000000000368. *)
Lemma total_of_recorded_subtotals_differs :
  form_submission (F:=float) long_stay
  ∧ ¬ ∀ e : entry float,
        e ∈ emissions_data (run_session [long_stay] init_state) →
        Total_Emissions e =
          f_round2 (Transport_Emissions e + Accommodation_Emissions e
                    + Meal_Emissions e).
Proof.
  split.
  - unfold form_submission, form_trip_ok, form_stay_ok, form_meal_ok.
    cbn. repeat first [split | discriminate | constructor].
  - intros Hall.
    assert (Hin : ∃ e : entry float,
              e ∈ emissions_data (run_session [long_stay] init_state)
              ∧ Prim2SF (Total_Emissions e)
                ≠ Prim2SF (f_round2 (Transport_Emissions e
                                      + Accommodation_Emissions e
                                      + Meal_Emissions e))).
    { rewrite (proj1 (run_session_spec _ _)). eexists. split.
      - vm_compute. left.
      - vm_compute. discriminate. }
    destruct Hin as (e & Hin & Hne). apply Hne. f_equal. by apply Hall.
Qed.

(** C5: from the empty ledger, the history after any series of presses
    holds one entry for each press that went through, in the order of
    the presses, so its length is their number [N].  The running total
    is the sum, in that order, of [N] numbers, the unrounded totals of
    those presses, and the recorded totals are these numbers through
    [round(., 2)], one for one: that is the rounding between the two
    sums, and where it changes none of the totals the running total is
    the sum of the recorded totals.  In binary64 each recorded total is
    the double nearest to a decimal that lies within 0.005 of the
    summand it records. *)
Theorem ledger_history_and_running_total :
  (∀ F (HF : PyFloat F) (inps : list (submission F)),
     emissions_data (run_session inps init_state)
       = oks (map submission_entry inps)
     ∧ length (emissions_data (run_session inps init_state))
       = length (oks (map loops inps))
     ∧ length (oks (map submission_total inps))
       = length (oks (map loops inps))
     ∧ total_emissions (run_session inps init_state)
       = running_sum (oks (map submission_total inps))
     ∧ map Total_Emissions (emissions_data (run_session inps init_state))
       = map f_round2 (oks (map submission_total inps))
     ∧ (Forall (λ u, f_round2 u = u) (oks (map submission_total inps)) →
        total_emissions (run_session inps init_state)
        = running_sum
            (map Total_Emissions
               (emissions_data (run_session inps init_state)))))
  ∧ (∀ inps : list (submission float),
       Forall2 within_half_cent
         (oks (map submission_total inps))
         (map Total_Emissions (emissions_data (run_session inps init_state)))).
Proof.
  assert (Hgen : ∀ F (HF : PyFloat F) (inps : list (submission F)),
     emissions_data (run_session inps init_state)
       = oks (map submission_entry inps)
     ∧ total_emissions (run_session inps init_state)
       = running_sum (oks (map submission_total inps))
     ∧ map Total_Emissions (emissions_data (run_session inps init_state))
       = map f_round2 (oks (map submission_total inps))).
  { intros F HF inps.
    destruct (run_session_spec inps init_state) as [-> ->].
    cbn [init_state emissions_data total_emissions app].
    split; [done|]. split; [done | apply recorded_totals]. }
  split.
  - intros F HF inps. destruct (Hgen F HF inps) as (Hh & Ht & Hr).
    split; [done|]. split; [rewrite Hh; apply length_oks_entries|].
    split.
    { rewrite <- length_oks_entries.
      pose proof (f_equal length (recorded_totals inps)) as Hlen.
      by rewrite !length_map in Hlen. }
    split; [done|]. split; [done|].
    intros Hfix. rewrite Hr, Ht. f_equal. clear Hh Ht Hr.
    induction Hfix as [|u us Hu _ IH]; [done|]. cbn [map].
    by rewrite Hu, <- IH.
  - intros inps. destruct (Hgen float IEEE inps) as (_ & _ & ->).
    apply Forall2_fmap_r, Forall_Forall2_diag, Forall_true.
    intros u. apply ieee_round2_half_cent.
Qed.

(** In binary64 the sample business trip has the total 96.5, which
    rounding leaves as it is: after two presses the running total and
    the sum of the recorded totals are both 193. *)
Lemma ledger_history_and_running_total_witness :
  Forall (λ u : float, f_round2 u = u)
    (oks (map submission_total [business_trip; business_trip]))
  ∧ total_emissions
      (run_session (F:=float) [business_trip; business_trip] init_state)
    = running_sum
        (map Total_Emissions
           (emissions_data
              (run_session (F:=float) [business_trip; business_trip]
                 init_state))).
Proof.
  assert (Hfix : Forall (λ u : float, f_round2 u = u)
            (oks (map submission_total [business_trip; business_trip]))).
  { vm_compute. repeat constructor. }
  split; [exact Hfix|].
  exact (proj2 (proj2 (proj2 (proj2 (proj2
           (proj1 ledger_history_and_running_total float IEEE
              [business_trip; business_trip]))))) Hfix).
Defined.

(** ** Flight bands *)

(** C4: for a flight class of the table, the factor is looked up under
    short_haul below 800 km, under medium_haul from 800 km up to but not
    including 3700 km, and under long_haul from 3700 km on. *)
Theorem flight_band_thresholds
  (d : Qc) (cls : string) (bands : gmap string Qc) :
  EMISSION_FACTORS !! cls = Some (Tiered bands) →
  ((d < Qc_of_Z 800)%Qc →
     get_flight_emission_factor d cls = getitem bands "short_haul")
  ∧ ((Qc_of_Z 800 ≤ d)%Qc ∧ (d < Qc_of_Z 3700)%Qc →
     get_flight_emission_factor d cls = getitem bands "medium_haul")
  ∧ ((Qc_of_Z 3700 ≤ d)%Qc →
     get_flight_emission_factor d cls = getitem bands "long_haul").
Proof.
  intros Hcls.
  assert (Hcat : ∀ category,
            get_flight_emission_factor d cls = getitem bands category
            ∨ flight_category d ≠ category).
  { intros category.
    destruct (decide (flight_category d = category)) as [<-|]; [left|by right].
    apply elem_of_list_to_map_2 in Hcls. unfold get_flight_emission_factor.
    table_cases Hcls ltac:(injection Hcls as -> Hb;
                           first [discriminate Hb | subst bands; reflexivity]). }
  unfold flight_category in Hcat.
  assert (H800 : (d <? f_of_Z 800) = true ↔ (d < Qc_of_Z 800)%Qc)
    by apply Qc_ltb_true.
  assert (H800' : (d <? f_of_Z 800) = false ↔ (Qc_of_Z 800 ≤ d)%Qc)
    by apply Qc_ltb_false.
  assert (H3700 : (d <? f_of_Z 3700) = true ↔ (d < Qc_of_Z 3700)%Qc)
    by apply Qc_ltb_true.
  assert (H3700' : (d <? f_of_Z 3700) = false ↔ (Qc_of_Z 3700 ≤ d)%Qc)
    by apply Qc_ltb_false.
  split; [|split].
  - intros Hd%H800. destruct (Hcat "short_haul") as [?|Hne]; [done|].
    by rewrite Hd in Hne.
  - intros [Hlo%H800' Hhi%H3700].
    destruct (Hcat "medium_haul") as [?|Hne]; [done|].
    by rewrite Hlo, Hhi in Hne.
  - intros Hd. assert (Hlo : (Qc_of_Z 800 ≤ d)%Qc).
    { transitivity (Qc_of_Z 3700); [discriminate | exact Hd]. }
    apply H800' in Hlo. apply H3700' in Hd.
    destruct (Hcat "long_haul") as [?|Hne]; [done|].
    by rewrite Hlo, Hd in Hne.
Qed.

Lemma flight_band_thresholds_witness :
  EMISSION_FACTORS (F:=Qc) !! "FLIGHT - ECONOMY"
    = Some (Tiered (list_to_map [("short_haul", f_dec 15 2);
                                 ("medium_haul", f_dec 12 2);
                                 ("long_haul", f_dec 9 2)]))
  ∧ ((Qc_of_Z 799 < Qc_of_Z 800)%Qc
     ∧ get_flight_emission_factor (Qc_of_Z 799) "FLIGHT - ECONOMY"
       = Ok (f_dec 15 2))
  ∧ (((Qc_of_Z 800 ≤ Qc_of_Z 800)%Qc ∧ (Qc_of_Z 800 < Qc_of_Z 3700)%Qc)
     ∧ get_flight_emission_factor (Qc_of_Z 800) "FLIGHT - ECONOMY"
       = Ok (f_dec 12 2))
  ∧ ((Qc_of_Z 3700 ≤ Qc_of_Z 3700)%Qc
     ∧ get_flight_emission_factor (Qc_of_Z 3700) "FLIGHT - ECONOMY"
       = Ok (f_dec 9 2)).
Proof.
  assert (Heco : EMISSION_FACTORS (F:=Qc) !! "FLIGHT - ECONOMY"
            = Some (Tiered (list_to_map [("short_haul", f_dec 15 2);
                                         ("medium_haul", f_dec 12 2);
                                         ("long_haul", f_dec 9 2)])))
    by reflexivity.
  split; [exact Heco|].
  split; [|split].
  - assert (Hd : (Qc_of_Z 799 < Qc_of_Z 800)%Qc) by reflexivity.
    split; [exact Hd|].
    exact (proj1 (flight_band_thresholds _ _ _ Heco) Hd).
  - assert (Hd : (Qc_of_Z 800 ≤ Qc_of_Z 800)%Qc
                 ∧ (Qc_of_Z 800 < Qc_of_Z 3700)%Qc)
      by (split; [discriminate | reflexivity]).
    split; [exact Hd|].
    exact (proj1 (proj2 (flight_band_thresholds _ _ _ Heco)) Hd).
  - assert (Hd : (Qc_of_Z 3700 ≤ Qc_of_Z 3700)%Qc) by discriminate.
    split; [exact Hd|].
    exact (proj2 (proj2 (flight_band_thresholds _ _ _ Heco)) Hd).
Defined.

(** ** Symmetry of the distance *)

Section GeoExact.
Variable libm : LibM Qc.
Hypothesis sin_odd : ∀ x : Qc, m_sin libm (- x)%Qc = (- m_sin libm x)%Qc.
Hypothesis pow2_even : ∀ x : Qc, m_pow libm (- x)%Qc 2 = m_pow libm x 2.

Lemma half_difference_swap (x y : Qc) :
  f_div (x - y) (f_of_Z 2) = (- f_div (y - x) (f_of_Z 2))%Qc.
Proof.
  cbn [f_div f_sub f_of_Z Exact].
  assert (Qc_of_Z 2 ≠ 0%Qc) as H2 by discriminate.
  field. exact H2.
Qed.

Lemma haversine_distance_symmetric (lat1 lon1 lat2 lon2 : Qc) :
  haversine_distance libm lat1 lon1 lat2 lon2 =
  haversine_distance libm lat2 lon2 lat1 lon1.
Proof.
  unfold haversine_distance. cbv zeta.
  rewrite (half_difference_swap (m_radians libm lat2)).
  rewrite (half_difference_swap (m_radians libm lon2)).
  rewrite !sin_odd, !pow2_even.
  rewrite (Qcmult_comm (m_cos libm (m_radians libm lat1))).
  reflexivity.
Qed.

(** C8: in exact arithmetic, with a libm whose [sin] is odd and whose
    square is even, the distance from [a] to [b] is the distance from [b]
    to [a], for any two names, in the registry or not. *)
Theorem calculate_distance_symmetric (a b : string) :
  calculate_distance libm a b = calculate_distance libm b a.
Proof.
  unfold calculate_distance.
  destruct (CITY_COORDINATES !! a) as [c1|], (CITY_COORDINATES !! b) as [c2|];
    try reflexivity.
  by rewrite haversine_distance_symmetric.
Qed.

End GeoExact.

Lemma calculate_distance_symmetric_witness :
  (∀ x : Qc, m_sin linear_libm (- x)%Qc = (- m_sin linear_libm x)%Qc)
  ∧ (∀ x : Qc, m_pow linear_libm (- x)%Qc 2 = m_pow linear_libm x 2)
  ∧ calculate_distance linear_libm "DELHI" "LONDON"
    = calculate_distance linear_libm "LONDON" "DELHI".
Proof.
  assert (Hsin : ∀ x : Qc,
            m_sin linear_libm (- x)%Qc = (- m_sin linear_libm x)%Qc)
    by reflexivity.
  assert (Hpow : ∀ x : Qc,
            m_pow linear_libm (- x)%Qc 2 = m_pow linear_libm x 2)
    by (intros x; cbn [m_pow linear_libm]; change (Z.to_nat 2) with 2%nat;
        cbn [Qcpower]; ring).
  split; [exact Hsin|]. split; [exact Hpow|].
  exact (calculate_distance_symmetric linear_libm Hsin Hpow "DELHI" "LONDON").
Defined.

Lemma calculate_distance_cases_witness :
  (CITY_COORDINATES (F:=Qc) !! "VELLORE" = None
   ∨ CITY_COORDINATES (F:=Qc) !! "ATLANTIS" = None)
  ∧ calculate_distance linear_libm "VELLORE" "ATLANTIS" = f_of_Z 0
  ∧ CITY_COORDINATES (F:=Qc) !! "VELLORE"
    = Some (f_dec 129165 4, f_dec 791325 4)
  ∧ CITY_COORDINATES (F:=Qc) !! "CHENNAI"
    = Some (f_dec 130827 4, f_dec 802707 4)
  ∧ calculate_distance linear_libm "VELLORE" "CHENNAI"
    = f_round2 (great_circle_km linear_libm
                  (f_dec 129165 4) (f_dec 791325 4)
                  (f_dec 130827 4) (f_dec 802707 4)).
Proof.
  assert (Hnone : CITY_COORDINATES (F:=Qc) !! "VELLORE" = None
                  ∨ CITY_COORDINATES (F:=Qc) !! "ATLANTIS" = None)
    by (right; reflexivity).
  assert (Hv : CITY_COORDINATES (F:=Qc) !! "VELLORE"
               = Some (f_dec 129165 4, f_dec 791325 4)) by reflexivity.
  assert (Hc : CITY_COORDINATES (F:=Qc) !! "CHENNAI"
               = Some (f_dec 130827 4, f_dec 802707 4)) by reflexivity.
  split; [exact Hnone|].
  split; [exact (proj1 (calculate_distance_cases linear_libm _ _) Hnone)|].
  split; [exact Hv|]. split; [exact Hc|].
  exact (proj2 (calculate_distance_cases linear_libm _ _) _ _ _ _ Hv Hc).
Defined.

(** ** Legs and modes at concrete inputs *)

Lemma leg_emission_formula_witness :
  emission_factor (F:=Qc) "CAR - GASOLINE" (Qc_of_Z 1000) = Ok (f_dec 12 2)
  ∧ (1 ≤ 4)%Z
  ∧ trip_emission (road_trip "CAR - GASOLINE" 4 (Qc_of_Z 1000))
    = Ok (f_round2 (f_div (Qc_of_Z 1000 * f_dec 12 2)
                          (f_of_Z (Z.max 4 1)))).
Proof.
  assert (Hf : emission_factor (F:=Qc) "CAR - GASOLINE" (Qc_of_Z 1000)
               = Ok (f_dec 12 2)) by reflexivity.
  assert (Hp : (1 ≤ 4)%Z) by lia.
  split; [exact Hf|]. split; [exact Hp|].
  exact (proj1 (leg_emission_formula
                  (road_trip "CAR - GASOLINE" 4 (Qc_of_Z 1000)) _ Hf) Hp).
Defined.

(** C1, the claim as stated, fails for a leg with 0 passengers: the
    factor resolves, and the leg raises instead of emitting what one
    passenger would. *)
Lemma zero_passengers_not_guarded :
  emission_factor (F:=Qc) "CAR - GASOLINE" (Qc_of_Z 1000) = Ok (f_dec 12 2)
  ∧ trip_emission (road_trip "CAR - GASOLINE" 0 (Qc_of_Z 1000))
    = Raise ZeroDivisionError
  ∧ trip_emission (road_trip "CAR - GASOLINE" 0 (Qc_of_Z 1000))
    ≠ Ok (f_round2 (f_div (Qc_of_Z 1000 * f_dec 12 2)
                          (f_of_Z (Z.max 0 1)))).
Proof.
  assert (Hraise : trip_emission (road_trip "CAR - GASOLINE" 0 (Qc_of_Z 1000))
                   = Raise ZeroDivisionError) by reflexivity.
  split; [reflexivity|]. split; [exact Hraise|].
  rewrite Hraise. discriminate.
Qed.

Lemma unknown_mode_resolution_witness :
  (startswith "BICYCLE" "FLIGHT" = false
   ∧ EMISSION_FACTORS (F:=Qc) !! "BICYCLE" = None
   ∧ emission_factor "BICYCLE" (Qc_of_Z 12) = Raise (KeyError "BICYCLE"))
  ∧ (startswith "FLIGHT - PREMIUM" "FLIGHT" = true
     ∧ "FLIGHT - PREMIUM" ≠ "FLIGHT - ECONOMY"
     ∧ "FLIGHT - PREMIUM" ≠ "FLIGHT - BUSINESS"
     ∧ emission_factor "FLIGHT - PREMIUM" (Qc_of_Z 100) =
         Ok (if Qc_of_Z 100 <? f_of_Z 800 then f_dec 45 2
             else if Qc_of_Z 100 <? f_of_Z 3700 then f_dec 36 2
             else f_dec 27 2)).
Proof.
  assert (H1 : startswith "BICYCLE" "FLIGHT" = false) by reflexivity.
  assert (H2 : EMISSION_FACTORS (F:=Qc) !! "BICYCLE" = None) by reflexivity.
  assert (H3 : startswith "FLIGHT - PREMIUM" "FLIGHT" = true) by reflexivity.
  assert (H4 : "FLIGHT - PREMIUM" ≠ "FLIGHT - ECONOMY") by discriminate.
  assert (H5 : "FLIGHT - PREMIUM" ≠ "FLIGHT - BUSINESS") by discriminate.
  split.
  - split; [exact H1|]. split; [exact H2|].
    exact (proj1 (unknown_mode_resolution "BICYCLE" (Qc_of_Z 12)) H1 H2).
  - split; [exact H3|]. split; [exact H4|]. split; [exact H5|].
    exact (proj2 (unknown_mode_resolution "FLIGHT - PREMIUM" (Qc_of_Z 100))
             H3 H4 H5).
Defined.

(** C2, the claim as stated, fails for a flight mode that is none of the
    three classes: it is not a key of the table, and it resolves to the
    first-class short-haul factor 0.45 without an error. *)
Lemma unknown_flight_class_defaults :
  EMISSION_FACTORS (F:=Qc) !! "FLIGHT - PREMIUM" = None
  ∧ emission_factor "FLIGHT - PREMIUM" (Qc_of_Z 100) = Ok (f_dec 45 2)
  ∧ ¬ ∃ e, emission_factor "FLIGHT - PREMIUM" (Qc_of_Z 100) = Raise e.
Proof.
  assert (Hok : emission_factor "FLIGHT - PREMIUM" (Qc_of_Z 100)
                = Ok (f_dec 45 2)) by reflexivity.
  split; [reflexivity|]. split; [exact Hok|].
  intros [e He]. rewrite Hok in He. discriminate.
Qed.

(** ** Rounding and the two totals *)

(** C6: the transport loop rounds each leg's quotient to two decimals and
    adds the rounded values in order, starting from 0; that sum is the
    transport subtotal the handler stores.  Rounding the sum of the
    unrounded quotients is another number: for two bus legs of 100 m the
    subtotal is 0, where rounding after the sum would give 0.01. *)
Theorem transport_subtotal_rounds_each_leg :
  (∀ F (HF : PyFloat F) (legs : list (trip F)),
     for_each trip_body legs (f_of_Z 0, []) =
       es ← map_result trip_emission legs;
       Ok (running_sum es, zip_with detail_of legs es))
  ∧ (∀ F (HF : PyFloat F) (t : trip F),
       trip_emission t = q ← trip_quotient t; Ok (f_round2 q))
  ∧ (∀ F (HF : PyFloat F) (inp : submission F) (s : session_state F) r,
       loops inp = Ok r →
       ∃ es, map_result trip_emission (trip_data inp) = Ok es
             ∧ transport_emissions (calculate_emissions inp s).2
               = running_sum es)
  ∧ (∃ T T' : Qc,
       for_each trip_body (two_short_legs (F:=Qc)) (f_of_Z 0, [])
         ≫= (λ acc, Ok acc.1) = Ok T
       ∧ round_after_sum (F:=Qc) two_short_legs = Ok T'
       ∧ T ≠ T').
Proof.
  split; [|split; [|split]].
  - intros F HF legs. by rewrite for_each_trip_body.
  - intros F HF t. apply trip_emission_quotient.
  - intros F HF inp s r Hr.
    destruct (loops_transport inp r Hr) as (es & Hes & HT & _).
    exists es. split; [done|].
    by rewrite calculate_emissions_unfold, Hr.
  - exists (Qc_of_Z 0), (f_dec 1 2). split; [|split].
    + apply result_Qc_eq. vm_compute. reflexivity.
    + apply result_Qc_eq. vm_compute. reflexivity.
    + intros Heq. apply (f_equal this) in Heq. vm_compute in Heq.
      discriminate Heq.
Qed.

(** The sample business trip goes through, so the statement about a press
    that goes through is about something. *)
Lemma transport_subtotal_rounds_each_leg_witness :
  ∃ r, loops (F:=Qc) business_trip = Ok r
       ∧ ∃ es : list Qc,
           map_result trip_emission (trip_data business_trip) = Ok es
           ∧ transport_emissions
               (calculate_emissions business_trip init_state).2
             = running_sum es.
Proof.
  assert (Hr : ∃ r, loops (F:=Qc) business_trip = Ok r)
    by (eexists; reflexivity).
  destruct Hr as [r Hr]. exists r. split; [exact Hr|].
  exact (proj1 (proj2 (proj2 transport_subtotal_rounds_each_leg))
           Qc Exact business_trip init_state r Hr).
Defined.

(** C10: a press that goes through adds the unrounded total of the
    submission to the running total and appends an entry whose total is
    that number rounded to two decimals.  So after any series of presses
    the running total is the sum, in order, of the unrounded totals,
    while the history holds their roundings.  In binary64 the two can
    part: after two bus legs of 2.5 km and 5 km the running total is
    0.1 + 0.2 and the recorded total is 0.3. *)
Theorem running_total_accumulates_unrounded :
  (∀ F (HF : PyFloat F) (inp : submission F) (s : session_state F) r,
     loops inp = Ok r →
     total_emissions (calculate_emissions inp s).2
       = total_emissions s + unrounded_total r
     ∧ emissions_data (calculate_emissions inp s).2
       = (emissions_data s ++ [entry_of inp r])%list
     ∧ Total_Emissions (entry_of inp r) = f_round2 (unrounded_total r))
  ∧ (∀ F (HF : PyFloat F) (inps : list (submission F)),
       total_emissions (run_session inps init_state)
         = running_sum (oks (map submission_total inps))
       ∧ map Total_Emissions (emissions_data (run_session inps init_state))
         = map f_round2 (oks (map submission_total inps)))
  ∧ (∃ inps : list (submission float),
       total_emissions (run_session inps init_state)
       ≠ running_sum
           (map Total_Emissions
              (emissions_data (run_session inps init_state)))).
Proof.
  split; [|split].
  - intros F HF inp s r Hr. rewrite calculate_emissions_unfold, Hr.
    by cbn [snd committed total_emissions emissions_data].
  - intros F HF inps.
    destruct (run_session_spec inps init_state) as [-> ->].
    cbn [init_state emissions_data total_emissions app].
    split; [done | apply recorded_totals].
  - exists [two_bus_legs]. intros Heq.
    apply (f_equal Prim2SF) in Heq. vm_compute in Heq. discriminate Heq.
Qed.

Lemma running_total_accumulates_unrounded_witness :
  ∃ r, loops (F:=float) two_bus_legs = Ok r
       ∧ total_emissions (calculate_emissions two_bus_legs init_state).2
         = total_emissions init_state + unrounded_total r
       ∧ emissions_data (calculate_emissions two_bus_legs init_state).2
         = (emissions_data init_state ++ [entry_of two_bus_legs r])%list
       ∧ Total_Emissions (entry_of two_bus_legs r)
         = f_round2 (unrounded_total r).
Proof.
  assert (Hr : ∃ r, loops (F:=float) two_bus_legs = Ok r)
    by (eexists; reflexivity).
  destruct Hr as [r Hr]. exists r. split; [exact Hr|].
  exact (proj1 running_total_accumulates_unrounded
           float IEEE two_bus_legs init_state r Hr).
Defined.

(** ** The worked examples of the specification *)

(** 1000 km by petrol car: 120 kg for one passenger, 30 kg each for four. *)
Example passenger_division :
  trip_emission (road_trip "CAR - GASOLINE" 1 (Qc_of_Z 1000))
    = Ok (Qc_of_Z 120)
  ∧ trip_emission (road_trip "CAR - GASOLINE" 4 (Qc_of_Z 1000))
    = Ok (Qc_of_Z 30).
Proof. split; apply result_Qc_eq; vm_compute; reflexivity. Qed.

(** Vegan breakfast and omnivore lunch for three days: 16.5 kg. *)
Example meal_aggregation :
  meal_body (Qc_of_Z 0)
    {| breakfast := "VEGAN"; lunch := "OMNIVORE"; dinner := "None";
       meal_nights := 3 |}
  = Ok (f_dec 165 1).
Proof. apply result_Qc_eq. vm_compute. reflexivity. Qed.

(** No trips, stays or meals: every subtotal is 0. *)
Example zero_input :
  loops (F:=Qc) (press [] [] [] "2025-03-01 09:00:00")
  = Ok {| sub_transport := Qc_of_Z 0; sub_details := [];
          sub_accommodation := Qc_of_Z 0; sub_meal := Qc_of_Z 0 |}.
Proof. reflexivity. Qed.

(** The session after the sample business trip: 30 + 50 + 16.5. *)
Example business_trip_total :
  (calculate_emissions (F:=Qc) business_trip init_state).1 = Ok tt
  ∧ total_emissions (run_session (F:=Qc) [business_trip] init_state)
    = f_dec 965 1.
Proof.
  split; [reflexivity|]. apply Qc_is_canon. vm_compute. reflexivity.
Qed.

(** A submission with an unknown hotel tier raises and leaves the session
    as it was. *)
Example rejected_submission :
  calculate_emissions
    (press [road_trip "TAXI" 1 (Qc_of_Z 12)]
           [{| location := "PARIS"; hotel_type := "HOSTEL";
               stay_nights := 1 |}] [] "2025-03-02 10:00:00")
    init_state
  = (Raise (KeyError "HOSTEL"), init_state).
Proof. reflexivity. Qed.

(** A leg from a city that is not in the registry has distance 0 and
    emits 0, without an error. *)
Example unknown_city_leg :
  distance (form_trip linear_libm "ATLANTIS" "DELHI" "TAXI" 1) = Qc_of_Z 0
  ∧ trip_emission (form_trip linear_libm "ATLANTIS" "DELHI" "TAXI" 1)
    = Ok (Qc_of_Z 0).
Proof.
  split; [reflexivity|]. apply result_Qc_eq. vm_compute. reflexivity.
Qed.

(** [round] on doubles at the values Python's documentation discusses:
    2.675 is below the tie in binary and goes down, 0.125 is an exact tie
    and goes to the even neighbour, 0.1 + 0.2 rounds to 0.3. *)
Example ieee_round2_samples :
  ieee_round2 (ieee_dec 2675 3) = ieee_dec 267 2
  ∧ ieee_round2 (ieee_dec 125 3) = ieee_dec 12 2
  ∧ ieee_round2 (ieee_dec 1 1 + ieee_dec 2 1)%float = ieee_dec 3 1.
Proof. repeat split; vm_compute; reflexivity. Qed.

(** * Further properties *)

(** ** Loops *)

Lemma result_bind_Raise {A B} (f : A → result B) (r : result A) (e : exn) :
  r ≫= f = Raise e ↔ r = Raise e ∨ ∃ a, r = Ok a ∧ f a = Raise e.
Proof.
  destruct r as [a|e']; simpl; split.
  - eauto.
  - intros [[=]|(a' & [= ->] & Hf)]. exact Hf.
  - intros [= ->]. by left.
  - intros [[= ->]|(a' & [=] & _)]. reflexivity.
Qed.

(** A loop whose body goes through on every element goes through. *)
Lemma for_each_Ok {A S} (body : S → A → result S) (xs : list A) :
  (∀ x, x ∈ xs → ∀ s, ∃ s', body s x = Ok s') →
  ∀ s, ∃ s', for_each body xs s = Ok s'.
Proof.
  induction xs as [|x xs IH]; intros Hbody s; cbn [for_each].
  - by exists s.
  - destruct (Hbody x (list_elem_of_here _ _) s) as [s1 ->]. cbn [mbind result_bind].
    apply IH. intros y Hy. apply Hbody. by right.
Qed.

(** The exception of a loop is the exception of its body on one of the
    elements. *)
Lemma for_each_Raise {A S} (body : S → A → result S) (xs : list A) s e :
  for_each body xs s = Raise e → ∃ x s0, x ∈ xs ∧ body s0 x = Raise e.
Proof.
  revert s. induction xs as [|x xs IH]; intros s; cbn [for_each]; [done|].
  intros [Hx|(s1 & _ & Hxs)]%result_bind_Raise.
  - exists x, s. split; [left|done].
  - destruct (IH _ Hxs) as (y & s0 & Hy & Hb). exists y, s0. split; [by right|done].
Qed.

(** ** Factor resolution *)

Section Resolution.
Context {F : Type} `{PyFloat F}.

Lemma EMISSION_FACTORS_of_items :
  EMISSION_FACTORS (F:=F) = list_to_map EMISSION_FACTORS_items.
Proof. reflexivity. Qed.

Lemma HOTEL_EMISSION_FACTORS_of_items :
  HOTEL_EMISSION_FACTORS (F:=F) = list_to_map HOTEL_EMISSION_FACTORS_items.
Proof. reflexivity. Qed.

Lemma MEAL_EMISSION_FACTORS_of_items :
  MEAL_EMISSION_FACTORS (F:=F) = list_to_map MEAL_EMISSION_FACTORS_items.
Proof. reflexivity. Qed.

(** The flight function has an answer for every distance and every
    string. *)
Lemma get_flight_emission_factor_Ok (d : F) (cls : string) :
  ∃ f, get_flight_emission_factor d cls = Ok f
       ∧ f ∈ [f_dec 15 2; f_dec 12 2; f_dec 9 2;
              f_dec 30 2; f_dec 24 2; f_dec 18 2;
              f_dec 45 2; f_dec 36 2; f_dec 27 2].
Proof.
  unfold get_flight_emission_factor, flight_category.
  repeat case_decide; repeat case_match;
    (eexists; split; [reflexivity|]); set_solver.
Qed.

(** A key whose value is a dict of bands starts with FLIGHT. *)
Lemma tiered_key_is_flight (mode : string) (bands : gmap string F) :
  EMISSION_FACTORS !! mode = Some (Tiered bands) →
  startswith mode "FLIGHT" = true.
Proof.
  intros Hm. apply elem_of_list_to_map_2 in Hm.
  table_cases Hm ltac:(injection Hm as -> Hb;
                       first [discriminate Hb | reflexivity]).
Qed.

(** Factor resolution raises only for a string that does not start with
    FLIGHT and is not a key, and then it raises [KeyError] of that string. *)
Lemma emission_factor_Raise (mode : string) (d : F) (e : exn) :
  emission_factor mode d = Raise e ↔
  startswith mode "FLIGHT" = false
  ∧ EMISSION_FACTORS (F:=F) !! mode = None
  ∧ e = KeyError mode.
Proof.
  unfold emission_factor.
  destruct (startswith mode "FLIGHT") eqn:Hstart.
  - destruct (get_flight_emission_factor_Ok d mode) as (f & -> & _).
    split; [done | by intros [? _]].
  - unfold getitem.
    destruct (EMISSION_FACTORS !! mode) as [[bands|f]|] eqn:Hm;
      cbn [mbind result_bind].
    + apply tiered_key_is_flight in Hm. congruence.
    + split; [done | by intros (_ & ? & _)].
    + split; [by intros [= <-] | by intros (_ & _ & ->)].
Qed.

(** X1: factor resolution fails exactly on the strings that neither start
    with FLIGHT nor are keys of the table, with [KeyError] of the string
    itself; it never raises anything else.  A string that starts with
    FLIGHT always gets one of the nine flight factors. *)
Theorem factor_resolution_errors (mode : string) (d : F) :
  (∀ e, emission_factor mode d = Raise e ↔
        startswith mode "FLIGHT" = false
        ∧ EMISSION_FACTORS (F:=F) !! mode = None
        ∧ e = KeyError mode)
  ∧ (startswith mode "FLIGHT" = true →
     ∃ f, emission_factor mode d = Ok f
          ∧ f ∈ [f_dec 15 2; f_dec 12 2; f_dec 9 2;
                 f_dec 30 2; f_dec 24 2; f_dec 18 2;
                 f_dec 45 2; f_dec 36 2; f_dec 27 2]).
Proof.
  split.
  - intros e. apply emission_factor_Raise.
  - intros Hstart. unfold emission_factor. rewrite Hstart.
    apply get_flight_emission_factor_Ok.
Qed.

End Resolution.

Lemma factor_resolution_errors_witness :
  startswith "FLIGHT - CHARTER" "FLIGHT" = true
  ∧ ∃ f : Qc,
      emission_factor "FLIGHT - CHARTER" (Qc_of_Z 1200) = Ok f
      ∧ f ∈ [f_dec 15 2; f_dec 12 2; f_dec 9 2;
             f_dec 30 2; f_dec 24 2; f_dec 18 2;
             f_dec 45 2; f_dec 36 2; f_dec 27 2].
Proof.
  assert (Hs : startswith "FLIGHT - CHARTER" "FLIGHT" = true) by reflexivity.
  split; [exact Hs|].
  exact (proj2 (factor_resolution_errors "FLIGHT - CHARTER" (Qc_of_Z 1200))
           Hs).
Defined.


(** ** What the form lets through, and what the handler can raise *)

Section FormAndErrors.
Context {F : Type} `{PyFloat F}.

Lemma getitem_Raise {V} (d : gmap string V) (k : string) (e : exn) :
  getitem d k = Raise e ↔ d !! k = None ∧ e = KeyError k.
Proof.
  unfold getitem. destruct (d !! k); split; try done.
  - by intros [? _].
  - by intros [= <-].
  - by intros [_ ->].
Qed.

Lemma trip_emission_Raise (t : trip F) (e : exn) :
  trip_emission t = Raise e ↔
  (startswith (travel_mode t) "FLIGHT" = false
   ∧ EMISSION_FACTORS (F:=F) !! travel_mode t = None
   ∧ e = KeyError (travel_mode t))
  ∨ ((∃ f, emission_factor (travel_mode t) (distance t) = Ok f)
     ∧ passengers t = 0%Z ∧ e = ZeroDivisionError).
Proof.
  assert (Hkey : startswith (travel_mode t) "FLIGHT" = false
                 ∧ EMISSION_FACTORS (F:=F) !! travel_mode t = None →
                 emission_factor (travel_mode t) (distance t)
                 = Raise (KeyError (travel_mode t))).
  { intros [? ?]. by apply emission_factor_Raise. }
  unfold trip_emission, truediv.
  destruct (emission_factor _ _) as [f|x] eqn:Hf; cbn [mbind result_bind].
  - case_decide as Hp; cbn [mbind result_bind]; split.
    + intros [= <-]. right. split; [by exists f|done].
    + intros [(Hs & Hn & _)|(_ & _ & ->)]; [|done].
      by specialize (Hkey (conj Hs Hn)).
    + done.
    + intros [(Hs & Hn & _)|(_ & ? & _)]; [|done].
      by specialize (Hkey (conj Hs Hn)).
  - apply emission_factor_Raise in Hf as (Hs & Hn & ->). split.
    + intros [= <-]. by left.
    + intros [(_ & _ & ->)|((f & [=]) & _)]. done.
Qed.

Lemma add_meal_Raise (acc : F) (meal : string) (e : exn) :
  add_meal acc meal = Raise e ↔
  meal ≠ "None" ∧ MEAL_EMISSION_FACTORS (F:=F) !! meal = None
  ∧ e = KeyError meal.
Proof.
  unfold add_meal. case_decide as Hm.
  - rewrite result_bind_Raise, getitem_Raise. split.
    + intros [[? ->]|(f & _ & [=])]. done.
    + intros (_ & ? & ->). by left.
  - split; [done | by intros [? _]].
Qed.

Lemma meal_body_Raise (acc : F) (m : meal_day) (e : exn) :
  meal_body acc m = Raise e →
  ∃ meal, meal ∈ [breakfast m; lunch m; dinner m]
          ∧ meal ≠ "None"
          ∧ MEAL_EMISSION_FACTORS (F:=F) !! meal = None
          ∧ e = KeyError meal.
Proof.
  unfold meal_body.
  intros [Hb|(d1 & _ & [Hl|(d2 & _ & [Hd|(d3 & _ & [=])]
          %result_bind_Raise)]%result_bind_Raise)]%result_bind_Raise.
  - apply add_meal_Raise in Hb as (? & ? & ?).
    exists (breakfast m). repeat split; try done. set_solver.
  - apply add_meal_Raise in Hl as (? & ? & ?).
    exists (lunch m). repeat split; try done. set_solver.
  - apply add_meal_Raise in Hd as (? & ? & ?).
    exists (dinner m). repeat split; try done. set_solver.
Qed.

(** X2: for a submission whose passenger and night counts convert to a
    [float] (past that range Python raises [OverflowError], which the
    model leaves out), when the handler raises, the exception names its
    cause in the submission: [ZeroDivisionError] means some leg has 0
    passengers; [KeyError k] means [k] is the mode of a leg (not
    starting with FLIGHT), the hotel type of a stay, or a meal other
    than "None", and is missing from its table.  Nothing else is
    raised. *)
Theorem handler_exceptions (inp : submission F) (s s' : session_state F) e :
  counts_fit_float inp →
  calculate_emissions inp s = (Raise e, s') →
  (e = ZeroDivisionError
   ∧ ∃ t, t ∈ trip_data inp ∧ passengers t = 0%Z)
  ∨ (∃ t, t ∈ trip_data inp
          ∧ e = KeyError (travel_mode t)
          ∧ startswith (travel_mode t) "FLIGHT" = false
          ∧ EMISSION_FACTORS (F:=F) !! travel_mode t = None)
  ∨ (∃ st, st ∈ stay_data inp
           ∧ e = KeyError (hotel_type st)
           ∧ HOTEL_EMISSION_FACTORS (F:=F) !! hotel_type st = None)
  ∨ (∃ m meal, m ∈ meal_data inp
               ∧ meal ∈ [breakfast m; lunch m; dinner m]
               ∧ e = KeyError meal
               ∧ meal ≠ "None"
               ∧ MEAL_EMISSION_FACTORS (F:=F) !! meal = None).
Proof.
  intros _. rewrite calculate_emissions_unfold.
  destruct (loops inp) as [r|x] eqn:Hl; [done|]. intros [= ->].
  unfold loops in Hl.
  apply result_bind_Raise in Hl as [Ht|(T & _ & Hl)].
  { apply for_each_Raise in Ht as (t & acc & Hin & Hb).
    unfold trip_body in Hb.
    apply result_bind_Raise in Hb as [Hb|(? & _ & [=])].
    apply trip_emission_Raise in Hb as [(? & ? & ->)|(_ & ? & ->)].
    - right; left. by exists t.
    - left. split; [done|]. by exists t. }
  apply result_bind_Raise in Hl as [Hs|(A & _ & Hl)].
  { apply for_each_Raise in Hs as (st & acc & Hin & Hb).
    unfold stay_body in Hb.
    apply result_bind_Raise in Hb as [Hb|(? & _ & [=])].
    apply getitem_Raise in Hb as [? ->].
    right; right; left. by exists st. }
  apply result_bind_Raise in Hl as [Hm|(M & _ & [=])].
  apply for_each_Raise in Hm as (m & acc & Hin & Hb).
  apply meal_body_Raise in Hb as (meal & ? & ? & ? & ->).
  right; right; right. by exists m, meal.
Qed.

(** Every option of the mode select box has a factor at every distance. *)
Lemma mode_option_resolves (mode : string) (d : F) :
  mode ∈ mode_options (F:=F) → ∃ f, emission_factor mode d = Ok f.
Proof.
  intros Hin.
  destruct (emission_factor mode d) as [f|e] eqn:Hf; [by exists f|].
  apply emission_factor_Raise in Hf as (Hstart & Hnone & _).
  exfalso. unfold mode_options in Hin. cbn in Hin.
  table_cases Hin ltac:(subst mode; first [discriminate Hstart | discriminate Hnone]).
Qed.

Lemma hotel_option_resolves (k : string) :
  k ∈ hotel_options (F:=F) →
  ∃ f, getitem (HOTEL_EMISSION_FACTORS (F:=F)) k = Ok f.
Proof.
  intros Hin. unfold hotel_options in Hin. cbn in Hin.
  table_cases Hin ltac:(subst k; eexists; reflexivity).
Qed.

Lemma meal_option_resolves (acc : F) (k : string) :
  k ∈ meal_options (F:=F) → ∃ acc', add_meal acc k = Ok acc'.
Proof.
  intros Hin. unfold meal_options in Hin. cbn in Hin.
  table_cases Hin ltac:(subst k; eexists; reflexivity).
Qed.

(** X3: a submission the widgets can produce never raises: with every
    mode, hotel type and meal among the options of its select box and at
    least one passenger on every leg, the three loops go through and the
    handler commits, from any session state. *)
Theorem form_submission_goes_through (inp : submission F) :
  form_submission inp →
  ∃ r, loops inp = Ok r
       ∧ ∀ s, calculate_emissions inp s = (Ok tt, committed inp r s).
Proof.
  intros (Htrips & Hstays & Hmeals).
  assert (∃ r, loops inp = Ok r) as [r Hr].
  { unfold loops.
    destruct (for_each_Ok (trip_body (F:=F)) (trip_data inp)) with (s := (@f_of_Z F _ 0, @nil (trip_detail F)))
      as [T ->].
    { intros t Ht acc. rewrite list.Forall_forall in Htrips.
      destruct (Htrips t Ht) as [Hmode Hp].
      destruct (mode_option_resolves _ (distance t) Hmode) as [f Hf].
      unfold trip_body, trip_emission, truediv. rewrite Hf.
      cbn [mbind result_bind]. rewrite decide_False by lia. by eexists. }
    destruct (for_each_Ok (stay_body (F:=F)) (stay_data inp)) with (s := @f_of_Z F _ 0)
      as [A ->].
    { intros st Hst acc. rewrite list.Forall_forall in Hstays.
      destruct (Hstays st Hst) as [Hh _].
      destruct (hotel_option_resolves _ Hh) as [f Hf].
      unfold stay_body. rewrite Hf. by eexists. }
    destruct (for_each_Ok (meal_body (F:=F)) (meal_data inp)) with (s := @f_of_Z F _ 0)
      as [M ->].
    { intros m Hm acc. rewrite list.Forall_forall in Hmeals.
      destruct (Hmeals m Hm) as (Hb & Hl & Hd & _).
      unfold meal_body.
      destruct (meal_option_resolves (f_of_Z 0) _ Hb) as [d1 ->].
      cbn [mbind result_bind].
      destruct (meal_option_resolves d1 _ Hl) as [d2 ->].
      cbn [mbind result_bind].
      destruct (meal_option_resolves d2 _ Hd) as [d3 ->].
      by eexists. }
    by eexists. }
  exists r. split; [done|]. intros s.
  by rewrite calculate_emissions_unfold, Hr.
Qed.

End FormAndErrors.

(** The counts that convert are those below [2^1024 - 2^970] in
    magnitude, where the nearest double stops being finite. *)
Example int_fits_float_range :
  int_fits_float (2 ^ 1024 - 2 ^ 970 - 1) = true
  ∧ int_fits_float (2 ^ 1024 - 2 ^ 970) = false
  ∧ int_fits_float (- (2 ^ 1024 - 2 ^ 970 - 1)) = true
  ∧ int_fits_float (- (2 ^ 1024 - 2 ^ 970)) = false.
Proof. repeat split; vm_compute; reflexivity. Qed.

Lemma handler_exceptions_witness :
  counts_fit_float hostel_press
  ∧ calculate_emissions hostel_press init_state
    = (Raise (KeyError "HOSTEL"), init_state)
  ∧ ((KeyError "HOSTEL" = ZeroDivisionError
      ∧ ∃ t, t ∈ trip_data hostel_press ∧ passengers t = 0%Z)
     ∨ (∃ t, t ∈ trip_data hostel_press
             ∧ KeyError "HOSTEL" = KeyError (travel_mode t)
             ∧ startswith (travel_mode t) "FLIGHT" = false
             ∧ EMISSION_FACTORS (F:=Qc) !! travel_mode t = None)
     ∨ (∃ st, st ∈ stay_data hostel_press
              ∧ KeyError "HOSTEL" = KeyError (hotel_type st)
              ∧ HOTEL_EMISSION_FACTORS (F:=Qc) !! hotel_type st = None)
     ∨ (∃ m meal, m ∈ meal_data hostel_press
                  ∧ meal ∈ [breakfast m; lunch m; dinner m]
                  ∧ KeyError "HOSTEL" = KeyError meal
                  ∧ meal ≠ "None"
                  ∧ MEAL_EMISSION_FACTORS (F:=Qc) !! meal = None)).
Proof.
  assert (Hfit : counts_fit_float hostel_press).
  { unfold counts_fit_float. cbn [hostel_press press trip_data stay_data
      meal_data]. split; [|split].
    - apply List.Forall_cons; [vm_compute; exact I | apply List.Forall_nil].
    - apply List.Forall_cons; [vm_compute; exact I | apply List.Forall_nil].
    - apply List.Forall_nil. }
  assert (He : calculate_emissions hostel_press init_state
               = (Raise (KeyError "HOSTEL"), init_state)) by reflexivity.
  split; [exact Hfit|]. split; [exact He|].
  exact (handler_exceptions hostel_press init_state init_state _ Hfit He).
Defined.

Lemma form_submission_goes_through_witness :
  form_submission (F:=Qc) business_trip
  ∧ ∃ r, loops (F:=Qc) business_trip = Ok r
         ∧ ∀ s, calculate_emissions business_trip s
                = (Ok tt, committed business_trip r s).
Proof.
  assert (Hform : form_submission (F:=Qc) business_trip).
  { unfold form_submission, form_trip_ok, form_stay_ok, form_meal_ok.
    cbn. repeat first [split | discriminate | constructor]. }
  split; [exact Hform|].
  exact (form_submission_goes_through business_trip Hform).
Defined.


(** ** Invariants of the session *)

Section Session.
Context {F : Type} `{PyFloat F}.

(** What holds of a state and is kept by every press holds after any
    series of presses. *)
Lemma run_session_invariant (P : session_state F → Prop) :
  (∀ inp s, P s → P (calculate_emissions inp s).2) →
  ∀ inps s, P s → P (run_session inps s).
Proof.
  intros Hstep inps. unfold run_session.
  induction inps as [|inp inps IH]; intros s Hs; cbn [fold_left]; [done|].
  apply IH, Hstep, Hs.
Qed.

Lemma map_result_length {A B} (f : A → result B) (xs : list A) (ys : list B) :
  map_result f xs = Ok ys → length ys = length xs.
Proof.
  revert ys. induction xs as [|x xs IH]; intros ys; cbn [map_result].
  - by intros [= <-].
  - intros (y & _ & (ys' & Hys & [= <-])%result_bind_Ok)%result_bind_Ok.
    cbn [length]. by rewrite (IH ys').
Qed.

Lemma map_zip_with_detail_of (legs : list (trip F)) (es : list F) :
  length es = length legs →
  map td_Emission (zip_with detail_of legs es) = es
  ∧ map td_From (zip_with detail_of legs es) = map from_city legs
  ∧ map td_To (zip_with detail_of legs es) = map to_city legs
  ∧ map td_Mode (zip_with detail_of legs es) = map travel_mode legs
  ∧ map td_Distance (zip_with detail_of legs es) = map distance legs.
Proof.
  revert es. induction legs as [|t legs IH]; intros [|e es] Hlen;
    try done.
  injection Hlen as Hlen. destruct (IH es Hlen) as (H1 & H2 & H3 & H4 & H5).
  cbn [zip_with map detail_of td_Emission td_From td_To td_Mode td_Distance].
  by rewrite H1, H2, H3, H4, H5.
Qed.

(** X4: after a press that goes through, [trip_details] has one row per
    leg, in order, with the leg's cities, mode and distance and the
    leg's rounded emission; and in every reachable state the emissions
    of the rows add up, in order from 0, to exactly the stored
    transport subtotal. *)
Theorem itemized_legs_match_subtotal :
  (∀ (inp : submission F) (s : session_state F) (r : subtotals F),
     loops inp = Ok r →
     map td_From (trip_details (calculate_emissions inp s).2)
       = map from_city (trip_data inp)
     ∧ map td_To (trip_details (calculate_emissions inp s).2)
       = map to_city (trip_data inp)
     ∧ map td_Mode (trip_details (calculate_emissions inp s).2)
       = map travel_mode (trip_data inp)
     ∧ map td_Distance (trip_details (calculate_emissions inp s).2)
       = map distance (trip_data inp)
     ∧ map_result trip_emission (trip_data inp)
       = Ok (map td_Emission (trip_details (calculate_emissions inp s).2)))
  ∧ (∀ inps : list (submission F),
       running_sum
         (map td_Emission (trip_details (run_session inps init_state)))
       = transport_emissions (run_session inps init_state)).
Proof.
  assert (Hpress : ∀ (inp : submission F) r, loops inp = Ok r →
            map td_From (sub_details r) = map from_city (trip_data inp)
            ∧ map td_To (sub_details r) = map to_city (trip_data inp)
            ∧ map td_Mode (sub_details r) = map travel_mode (trip_data inp)
            ∧ map td_Distance (sub_details r) = map distance (trip_data inp)
            ∧ map_result trip_emission (trip_data inp)
              = Ok (map td_Emission (sub_details r))
            ∧ running_sum (map td_Emission (sub_details r))
              = sub_transport r).
  { intros inp r Hr.
    destruct (loops_transport inp r Hr) as (es & Hes & -> & ->).
    destruct (map_zip_with_detail_of (trip_data inp) es
                (map_result_length _ _ _ Hes)) as (-> & -> & -> & -> & ->).
    by rewrite Hes. }
  split.
  - intros inp s r Hr. rewrite calculate_emissions_unfold, Hr.
    cbn [snd committed trip_details].
    destruct (Hpress inp r Hr) as (? & ? & ? & ? & ? & _). done.
  - intros inps.
    apply (run_session_invariant
             (λ s, running_sum (map td_Emission (trip_details s))
                   = transport_emissions s)); [|done].
    intros inp s Hs. rewrite calculate_emissions_unfold.
    destruct (loops inp) as [r|e] eqn:Hr; [|done].
    cbn [snd committed trip_details transport_emissions].
    by destruct (Hpress inp r Hr) as (_ & _ & _ & _ & _ & ?).
Qed.

(** X5: the history only grows at its end: whatever the presses, the
    history before them is a prefix of the history after them, and it
    grows by at most one entry per press. *)
Theorem history_append_only (inps : list (submission F)) (s : session_state F) :
  emissions_data s `prefix_of` emissions_data (run_session inps s)
  ∧ (length (emissions_data (run_session inps s))
     ≤ length (emissions_data s) + length inps)%nat.
Proof.
  rewrite (proj1 (run_session_spec inps s)). split.
  - by eexists.
  - rewrite length_app. apply Nat.add_le_mono_l.
    induction inps as [|inp inps IH]; [done|]. cbn [map oks length].
    destruct (submission_entry inp); cbn [length]; lia.
Qed.

(** X6: in every state reached from the initial one, either nothing has
    been recorded and the state is still the initial state, or the last
    entry of the history records the roundings of the three subtotals
    the state holds, and the rounding of their sum: the metrics of the
    Reports tab are those of the last row of the history. *)
Theorem last_calculation_is_last_entry (inps : list (submission F)) :
  match list.last (emissions_data (run_session inps init_state)) with
  | None =>
      run_session inps init_state = init_state
  | Some e =>
      Transport_Emissions e
        = f_round2 (transport_emissions (run_session inps init_state))
      ∧ Accommodation_Emissions e
        = f_round2 (accommodation_emissions (run_session inps init_state))
      ∧ Meal_Emissions e
        = f_round2 (meal_emissions (run_session inps init_state))
      ∧ Total_Emissions e
        = f_round2 (transport_emissions (run_session inps init_state)
                    + accommodation_emissions (run_session inps init_state)
                    + meal_emissions (run_session inps init_state))
  end.
Proof.
  apply (run_session_invariant
           (λ s, match list.last (emissions_data s) with
                 | None => s = init_state
                 | Some e =>
                     Transport_Emissions e = f_round2 (transport_emissions s)
                     ∧ Accommodation_Emissions e
                       = f_round2 (accommodation_emissions s)
                     ∧ Meal_Emissions e = f_round2 (meal_emissions s)
                     ∧ Total_Emissions e
                       = f_round2 (transport_emissions s
                                   + accommodation_emissions s
                                   + meal_emissions s)
                 end)); [|done].
  intros inp s Hs. rewrite calculate_emissions_unfold.
  destruct (loops inp) as [r|e]; [|done].
  cbn [snd committed emissions_data transport_emissions
       accommodation_emissions meal_emissions].
  by rewrite last_snoc.
Qed.

End Session.

Lemma itemized_legs_match_subtotal_witness :
  ∃ r, loops (F:=Qc) business_trip = Ok r
       ∧ map td_From
           (trip_details
              (calculate_emissions (F:=Qc) business_trip init_state).2)
         = map from_city (trip_data (business_trip (F:=Qc)))
       ∧ map_result trip_emission (trip_data (business_trip (F:=Qc)))
         = Ok (map td_Emission
                 (trip_details
                    (calculate_emissions business_trip init_state).2)).
Proof.
  assert (Hr : ∃ r, loops (F:=Qc) business_trip = Ok r)
    by (eexists; reflexivity).
  destruct Hr as [r Hr]. exists r. split; [exact Hr|].
  destruct (proj1 itemized_legs_match_subtotal business_trip init_state r Hr)
    as (H1 & _ & _ & _ & H5).
  split; [exact H1 | exact H5].
Defined.


(** ** Rounding in exact arithmetic *)

Lemma round_half_even_nonneg (n : Z) (d : positive) :
  (0 ≤ n → 0 ≤ round_half_even n d)%Z.
Proof.
  intros Hn. unfold round_half_even.
  pose proof (Z.div_pos n (Zpos d) Hn ltac:(lia)).
  destruct (_ ?= _)%Z; [destruct (Z.even _)| |]; lia.
Qed.

Lemma Qc_le_Q (x y : Qc) : (x ≤ y)%Qc ↔ (x <= y)%Q.
Proof. reflexivity. Qed.

Lemma Qc_round2_Q (x : Qc) :
  (Qc_round2 x : Q) == round_half_even (Qnum x * 100) (Qden x) # 100.
Proof. unfold Qc_round2. cbn [this Q2Qc]. apply Qred_correct. Qed.

Lemma Qc_round2_nonneg (x : Qc) : (Qc_of_Z 0 ≤ x)%Qc → (Qc_of_Z 0 ≤ Qc_round2 x)%Qc.
Proof.
  rewrite !Qc_le_Q, Qc_round2_Q. unfold Qle. cbn.
  intros Hx. pose proof (round_half_even_nonneg (Qnum x * 100) (Qden x)). lia.
Qed.


(** ** Signs and sizes in exact arithmetic *)

Lemma Qc_plus_Q (x y : Qc) : ((x + y)%Qc : Q) == (x : Q) + y.
Proof. apply Qred_correct. Qed.

Lemma Qc_mult_Q (x y : Qc) : ((x * y)%Qc : Q) == (x : Q) * y.
Proof. apply Qred_correct. Qed.

Lemma Qc_div_Z_Q (x : Qc) (p : positive) :
  (f_div x (f_of_Z (Zpos p)) : Q) == (x : Q) * (1 # p).
Proof.
  cbn [f_div f_of_Z Exact]. unfold Qcdiv, Qcinv.
  rewrite Qc_mult_Q. cbn [this Q2Qc]. rewrite Qred_correct.
  reflexivity.
Qed.

Lemma f_dec_nonneg (m : Z) (k : nat) :
  (0 ≤ m)%Z → (Qc_of_Z 0 ≤ f_dec m k)%Qc.
Proof.
  intros Hm. rewrite Qc_le_Q. cbn [f_dec Exact this Q2Qc].
  rewrite Qred_correct. unfold Qle. cbn. lia.
Qed.

Lemma Qc_mult_nonneg (x y : Qc) :
  (Qc_of_Z 0 ≤ x)%Qc → (Qc_of_Z 0 ≤ y)%Qc → (Qc_of_Z 0 ≤ x * y)%Qc.
Proof.
  rewrite !Qc_le_Q, Qc_mult_Q. apply Qmult_le_0_compat.
Qed.

Lemma Qc_plus_nonneg (x y : Qc) :
  (Qc_of_Z 0 ≤ x)%Qc → (Qc_of_Z 0 ≤ y)%Qc → (Qc_of_Z 0 ≤ x + y)%Qc.
Proof.
  rewrite !Qc_le_Q, Qc_plus_Q. intros Hx Hy.
  change (Qc_of_Z 0 : Q) with (0 + 0)%Q. by apply Qplus_le_compat.
Qed.

Lemma Qc_of_Z_nonneg (n : Z) : (0 ≤ n)%Z → (Qc_of_Z 0 ≤ Qc_of_Z n)%Qc.
Proof. intros Hn. rewrite Qc_le_Q. unfold Qle. cbn. lia. Qed.

Lemma Ok_inj {A} (a b : A) : Ok a = Ok b → a = b.
Proof. by intros [= ->]. Qed.

(** Every factor of the three tables is positive or zero. *)
Lemma emission_factor_nonneg (mode : string) (d f : Qc) :
  emission_factor mode d = Ok f → (Qc_of_Z 0 ≤ f)%Qc.
Proof.
  unfold emission_factor. destruct (startswith mode "FLIGHT").
  - destruct (get_flight_emission_factor_Ok d mode) as (f' & -> & Hin).
    intros [= <-].
    table_cases Hin ltac:(subst f'; apply f_dec_nonneg; lia).
  - intros (v & Hv%getitem_list_to_map & Hf)%result_bind_Ok.
    table_cases Hv ltac:(apply (f_equal snd) in Hv; cbn [snd] in Hv; subst v;
                         cbv beta iota in Hf;
                         first [discriminate Hf
                               | apply Ok_inj in Hf; subst f;
                                 apply f_dec_nonneg; lia]).
Qed.

Lemma hotel_factor_nonneg (k : string) (f : Qc) :
  getitem HOTEL_EMISSION_FACTORS k = Ok f → (Qc_of_Z 0 ≤ f)%Qc.
Proof.
  intros Hk%getitem_list_to_map.
  table_cases Hk ltac:(apply (f_equal snd) in Hk; cbn [snd] in Hk; subst f;
                       apply f_dec_nonneg; lia).
Qed.

Lemma meal_factor_nonneg (k : string) (f : Qc) :
  getitem MEAL_EMISSION_FACTORS k = Ok f → (Qc_of_Z 0 ≤ f)%Qc.
Proof.
  intros Hk%getitem_list_to_map.
  table_cases Hk ltac:(apply (f_equal snd) in Hk; cbn [snd] in Hk; subst f;
                       apply f_dec_nonneg; lia).
Qed.

Lemma trip_emission_nonneg (t : trip Qc) (e : Qc) :
  (Qc_of_Z 0 ≤ distance t)%Qc → (1 ≤ passengers t)%Z →
  trip_emission t = Ok e → (Qc_of_Z 0 ≤ e)%Qc.
Proof.
  intros Hd Hp. unfold trip_emission, truediv.
  intros (f & Hf%emission_factor_nonneg & Hq)%result_bind_Ok.
  rewrite decide_False in Hq by lia. injection Hq as <-.
  apply Qc_round2_nonneg.
  destruct (passengers t) as [|p|p]; try lia.
  rewrite Qc_le_Q, Qc_div_Z_Q.
  apply Qmult_le_0_compat; [|done].
  exact (Qc_mult_nonneg _ _ Hd Hf).
Qed.

Lemma add_meal_nonneg (acc : Qc) (meal : string) (acc' : Qc) :
  (Qc_of_Z 0 ≤ acc)%Qc → add_meal acc meal = Ok acc' →
  (Qc_of_Z 0 ≤ acc')%Qc.
Proof.
  intros Hacc. unfold add_meal. case_decide.
  - intros (f & Hf%meal_factor_nonneg & [= <-])%result_bind_Ok.
    by apply Qc_plus_nonneg.
  - by intros [= <-].
Qed.

(** The invariant of a loop need only be kept on the elements of the
    list. *)
Lemma for_each_invariant_elem {A S} (P : S → Prop) (body : S → A → result S)
  (xs : list A) :
  (∀ s x s', x ∈ xs → P s → body s x = Ok s' → P s') →
  ∀ s s', P s → for_each body xs s = Ok s' → P s'.
Proof.
  induction xs as [|x xs IH]; intros Hbody s s' Hs; cbn [for_each].
  - by intros [= <-].
  - intros (s1 & Hx & Hxs)%result_bind_Ok.
    apply (IH (λ s x s' Hin, Hbody s x s' (list_elem_of_further _ _ _ Hin)) s1);
      [|done].
    eapply Hbody; [left|done..].
Qed.

(** X7: in exact arithmetic, when no leg has a negative distance, every
    leg has at least one passenger and no stay or meal day has a
    negative number of nights, a press that goes through yields three
    subtotals and per-leg emissions that are not negative, and the
    running total does not go down. *)
Theorem emissions_nonnegative (inp : submission Qc) (r : subtotals Qc) :
  Forall (λ t, (Qc_of_Z 0 ≤ distance t)%Qc ∧ (1 ≤ passengers t)%Z)
         (trip_data inp) →
  Forall (λ st, (0 ≤ stay_nights st)%Z) (stay_data inp) →
  Forall (λ m, (0 ≤ meal_nights m)%Z) (meal_data inp) →
  loops inp = Ok r →
  (Qc_of_Z 0 ≤ sub_transport r)%Qc
  ∧ (Qc_of_Z 0 ≤ sub_accommodation r)%Qc
  ∧ (Qc_of_Z 0 ≤ sub_meal r)%Qc
  ∧ Forall (λ row, (Qc_of_Z 0 ≤ td_Emission row)%Qc) (sub_details r)
  ∧ ∀ s, (total_emissions s
          ≤ total_emissions (calculate_emissions inp s).2)%Qc.
Proof.
  intros Htrips Hstays Hmeals Hr.
  rewrite list.Forall_forall in Htrips. rewrite list.Forall_forall in Hstays.
  rewrite list.Forall_forall in Hmeals.
  assert (Hloops := Hr). unfold loops in Hloops.
  apply result_bind_Ok in Hloops as (T & HT & Hloops).
  apply result_bind_Ok in Hloops as (A & HA & Hloops).
  apply result_bind_Ok in Hloops as (M & HM & [= <-]).
  cbn [sub_transport sub_accommodation sub_meal sub_details] in *.
  assert (HTpos : (Qc_of_Z 0 ≤ T.1)%Qc
                  ∧ Forall (λ row, (Qc_of_Z 0 ≤ td_Emission row)%Qc) T.2).
  { eapply (for_each_invariant_elem
              (λ acc, (Qc_of_Z 0 ≤ acc.1)%Qc
                      ∧ Forall (λ row, (Qc_of_Z 0 ≤ td_Emission row)%Qc)
                               acc.2)); [| |exact HT].
    - intros acc t acc' Hin [Hacc Hrows]. unfold trip_body.
      intros (e & He & [= <-])%result_bind_Ok. cbn [fst snd].
      destruct (Htrips t Hin) as [Hd Hp].
      pose proof (trip_emission_nonneg t e Hd Hp He) as Hepos.
      split; [by apply Qc_plus_nonneg|].
      apply Forall_app. split; [done|]. by apply Forall_singleton.
    - split; [done | apply Forall_nil_2]. }
  assert (HApos : (Qc_of_Z 0 ≤ A)%Qc).
  { eapply (for_each_invariant_elem (λ acc, (Qc_of_Z 0 ≤ acc)%Qc));
      [| |exact HA]; [|done].
    intros acc st acc' Hin Hacc. unfold stay_body.
    intros (f & Hf%hotel_factor_nonneg & [= <-])%result_bind_Ok.
    apply Qc_plus_nonneg; [done|]. apply Qc_mult_nonneg; [done|].
    apply Qc_of_Z_nonneg. by apply Hstays. }
  assert (HMpos : (Qc_of_Z 0 ≤ M)%Qc).
  { eapply (for_each_invariant_elem (λ acc, (Qc_of_Z 0 ≤ acc)%Qc));
      [| |exact HM]; [|done].
    intros acc m acc' Hin Hacc. unfold meal_body.
    intros (d1 & H1 & (d2 & H2 & (d3 & H3 & [= <-])%result_bind_Ok)
              %result_bind_Ok)%result_bind_Ok.
    apply Qc_plus_nonneg; [done|]. apply Qc_mult_nonneg.
    - eapply add_meal_nonneg; [|exact H3].
      eapply add_meal_nonneg; [|exact H2].
      eapply add_meal_nonneg; [|exact H1]. done.
    - apply Qc_of_Z_nonneg. by apply Hmeals. }
  destruct HTpos as [HTpos Hrows].
  repeat split; try done.
  intros s. rewrite calculate_emissions_unfold, Hr.
  cbn [snd committed total_emissions unrounded_total sub_transport
       sub_accommodation sub_meal].
  assert (Hsum : (Qc_of_Z 0 ≤ (T.1 + A + M)%F)%Qc)
    by (by repeat apply Qc_plus_nonneg).
  rewrite <- (Qcplus_0_r (total_emissions s)) at 1.
  apply Qcplus_le_mono_l. exact Hsum.
Qed.

Lemma emissions_nonnegative_witness :
  Forall (λ t : trip Qc, (Qc_of_Z 0 ≤ distance t)%Qc ∧ (1 ≤ passengers t)%Z)
         (trip_data business_trip)
  ∧ Forall (λ st, (0 ≤ stay_nights st)%Z) (stay_data (business_trip (F:=Qc)))
  ∧ Forall (λ m, (0 ≤ meal_nights m)%Z) (meal_data (business_trip (F:=Qc)))
  ∧ ∃ r, loops (F:=Qc) business_trip = Ok r
         ∧ (Qc_of_Z 0 ≤ sub_transport r)%Qc
         ∧ (Qc_of_Z 0 ≤ sub_accommodation r)%Qc
         ∧ (Qc_of_Z 0 ≤ sub_meal r)%Qc.
Proof.
  assert (H1 : Forall (λ t : trip Qc,
                 (Qc_of_Z 0 ≤ distance t)%Qc ∧ (1 ≤ passengers t)%Z)
                 (trip_data business_trip)).
  { repeat constructor; discriminate. }
  assert (H2 : Forall (λ st, (0 ≤ stay_nights st)%Z)
                 (stay_data (business_trip (F:=Qc)))).
  { repeat constructor; discriminate. }
  assert (H3 : Forall (λ m, (0 ≤ meal_nights m)%Z)
                 (meal_data (business_trip (F:=Qc)))).
  { repeat constructor; discriminate. }
  assert (Hr : ∃ r, loops (F:=Qc) business_trip = Ok r)
    by (eexists; reflexivity).
  destruct Hr as [r Hr].
  split; [exact H1|]. split; [exact H2|]. split; [exact H3|].
  exists r. split; [exact Hr|].
  destruct (emissions_nonnegative business_trip r H1 H2 H3 Hr)
    as (HT & HA & HM & _).
  split; [exact HT|]. split; [exact HA | exact HM].
Defined.


(** ** Differences in exact arithmetic *)

Lemma Qc_minus_Q (x y : Qc) : ((x - y)%Qc : Q) == (x : Q) - y.
Proof.
  unfold Qcminus, Qcopp. rewrite Qc_plus_Q. cbn [this Q2Qc].
  by rewrite Qred_correct.
Qed.


(** ** Flights: longer is never dearer per kilometre *)

Lemma flight_category_monotone (d1 d2 : Qc) :
  (d1 ≤ d2)%Qc →
  (flight_category d1 = "short_haul")
  ∨ (flight_category d1 = "medium_haul"
     ∧ flight_category d2 ≠ "short_haul")
  ∨ (flight_category d1 = "long_haul" ∧ flight_category d2 = "long_haul").
Proof.
  intros Hd. unfold flight_category.
  destruct (d1 <? f_of_Z 800) eqn:H1; [by left|].
  apply Qc_ltb_false in H1.
  assert ((d2 <? f_of_Z 800) = false) as ->
    by (apply Qc_ltb_false; by etrans).
  destruct (d1 <? f_of_Z 3700) eqn:H2.
  - right; left. split; [done|]. by destruct (d2 <? f_of_Z 3700).
  - apply Qc_ltb_false in H2.
    assert ((d2 <? f_of_Z 3700) = false) as ->
      by (apply Qc_ltb_false; by etrans).
    right; right. done.
Qed.

(** X9: for every class string, known or not, the flight factor exists at
    every distance, lies between 0.09 and 0.45, and never goes up when
    the distance goes up. *)
Theorem flight_factor_monotone (d1 d2 : Qc) (cls : string) :
  (d1 ≤ d2)%Qc →
  ∃ f1 f2,
    get_flight_emission_factor d1 cls = Ok f1
    ∧ get_flight_emission_factor d2 cls = Ok f2
    ∧ (f2 ≤ f1)%Qc
    ∧ (f_dec 9 2 ≤ f2)%Qc ∧ (f1 ≤ f_dec 45 2)%Qc.
Proof.
  intros Hd. unfold get_flight_emission_factor.
  assert (Hc2 : flight_category d2 = "short_haul"
                ∨ flight_category d2 = "medium_haul"
                ∨ flight_category d2 = "long_haul").
  { unfold flight_category. repeat case_match; auto. }
  assert (Hcat : ∃ c1 c2, flight_category d1 = c1 ∧ flight_category d2 = c2
            ∧ (c1, c2) ∈ [("short_haul", "short_haul");
                          ("short_haul", "medium_haul");
                          ("short_haul", "long_haul");
                          ("medium_haul", "medium_haul");
                          ("medium_haul", "long_haul");
                          ("long_haul", "long_haul")]).
  { destruct (flight_category_monotone d1 d2 Hd)
      as [->|[[-> Hne]|[-> ->]]]; destruct Hc2 as [H2|[H2|H2]];
      rewrite ?H2 in *; try done; eexists _, _;
      (split; [reflexivity|]); (split; [reflexivity|]); set_solver. }
  destruct Hcat as (c1 & c2 & -> & -> & Hin).
  table_cases Hin ltac:(injection Hin as -> ->;
    repeat case_decide;
    (eexists _, _; split; [reflexivity|]; split; [reflexivity|];
     repeat split; discriminate)).
Qed.

Lemma flight_factor_monotone_witness :
  (Qc_of_Z 500 ≤ Qc_of_Z 4000)%Qc
  ∧ ∃ f1 f2,
      get_flight_emission_factor (Qc_of_Z 500) "FLIGHT - ECONOMY" = Ok f1
      ∧ get_flight_emission_factor (Qc_of_Z 4000) "FLIGHT - ECONOMY" = Ok f2
      ∧ (f2 ≤ f1)%Qc
      ∧ (f_dec 9 2 ≤ f2)%Qc ∧ (f1 ≤ f_dec 45 2)%Qc.
Proof.
  assert (Hd : (Qc_of_Z 500 ≤ Qc_of_Z 4000)%Qc) by discriminate.
  split; [exact Hd|].
  exact (flight_factor_monotone _ _ "FLIGHT - ECONOMY" Hd).
Defined.


(** ** Distances of zero *)

Lemma Qc_round2_zero : Qc_round2 (Qc_of_Z 0) = Qc_of_Z 0.
Proof. apply Qc_round2_two_decimals, two_decimals_of_Z. Qed.

(** A leg of distance 0 emits 0, whatever its mode and head count. *)
Lemma zero_distance_leg (t : trip Qc) (f : Qc) :
  distance t = Qc_of_Z 0 → passengers t ≠ 0%Z →
  emission_factor (travel_mode t) (distance t) = Ok f →
  trip_emission t = Ok (Qc_of_Z 0).
Proof.
  intros Hd Hp Hf. unfold trip_emission, truediv. rewrite Hf, Hd.
  cbn [mbind result_bind]. rewrite decide_False by done.
  (* 0 * f / p reduces to 0 by computation on the numerator *)
  rewrite <- Qc_round2_zero at 2. reflexivity.
Qed.

Section ZeroDistance.
Variable libm : LibM Qc.
Hypothesis sin_zero : m_sin libm (Qc_of_Z 0) = Qc_of_Z 0.
Hypothesis pow2_zero : m_pow libm (Qc_of_Z 0) 2 = Qc_of_Z 0.
Hypothesis sqrt_zero : m_sqrt libm (Qc_of_Z 0) = Qc_of_Z 0.
Hypothesis asin_zero : m_asin libm (Qc_of_Z 0) = Qc_of_Z 0.

Lemma haversine_distance_same_point (lat lon : Qc) :
  haversine_distance libm lat lon lat lon = Qc_of_Z 0.
Proof.
  unfold haversine_distance. cbv zeta.
  assert (Hhalf : ∀ x : Qc, f_div (x - x) (f_of_Z 2) = Qc_of_Z 0).
  { intros x. cbn [f_div f_sub f_of_Z Exact]. apply Qc_is_canon.
    unfold Qcdiv. rewrite Qc_mult_Q, Qc_minus_Q. cbn [this Qc_of_Z]. ring. }
  rewrite !Hhalf, sin_zero, pow2_zero.
  assert (Ha : ∀ x : Qc, Qc_of_Z 0 + x * Qc_of_Z 0 = Qc_of_Z 0).
  { intros x. cbn [f_add f_mul Exact]. apply Qc_is_canon.
    rewrite Qc_plus_Q, Qc_mult_Q. cbn [this Qc_of_Z]. ring. }
  rewrite Ha, sqrt_zero, asin_zero.
  cbn [f_mul f_of_Z Exact]. apply Qc_is_canon.
  rewrite !Qc_mult_Q. cbn [this Qc_of_Z]. ring.
Qed.

(** X10: in exact arithmetic, with a libm that is exact at 0, the
    distance from a city to itself is 0, and so is the distance the
    form computes when either city is not in the registry; a leg with
    such a distance is accepted and emits 0 for any mode that resolves
    and any non-zero passenger count. *)
Theorem distance_zero_and_silent_legs
  (a b mode : string) (p : Z) (f : Qc) :
  a = b ∨ CITY_COORDINATES (F:=Qc) !! a = None
  ∨ CITY_COORDINATES (F:=Qc) !! b = None →
  p ≠ 0%Z →
  emission_factor mode (Qc_of_Z 0) = Ok f →
  calculate_distance libm a b = Qc_of_Z 0
  ∧ trip_emission (form_trip libm a b mode p) = Ok (Qc_of_Z 0).
Proof.
  intros Hab Hp Hf.
  assert (Hd : calculate_distance libm a b = Qc_of_Z 0).
  { unfold calculate_distance. destruct Hab as [->|[->| ->]].
    - destruct (CITY_COORDINATES !! b) as [c|]; [|done].
      rewrite haversine_distance_same_point. apply Qc_round2_zero.
    - done.
    - by destruct (CITY_COORDINATES !! a). }
  split; [done|].
  apply (zero_distance_leg _ f); cbn [form_trip distance passengers travel_mode];
    [done|done|]. by rewrite Hd.
Qed.

End ZeroDistance.

Lemma distance_zero_and_silent_legs_witness :
  m_sin linear_libm (Qc_of_Z 0) = Qc_of_Z 0
  ∧ m_pow linear_libm (Qc_of_Z 0) 2 = Qc_of_Z 0
  ∧ m_sqrt linear_libm (Qc_of_Z 0) = Qc_of_Z 0
  ∧ m_asin linear_libm (Qc_of_Z 0) = Qc_of_Z 0
  ∧ ("DELHI" = "DELHI" ∨ CITY_COORDINATES (F:=Qc) !! "DELHI" = None
     ∨ CITY_COORDINATES (F:=Qc) !! "DELHI" = None)
  ∧ 2%Z ≠ 0%Z
  ∧ emission_factor "TAXI" (Qc_of_Z 0) = Ok (f_dec 15 2)
  ∧ calculate_distance linear_libm "DELHI" "DELHI" = Qc_of_Z 0
  ∧ trip_emission (form_trip linear_libm "DELHI" "DELHI" "TAXI" 2)
    = Ok (Qc_of_Z 0).
Proof.
  assert (H1 : m_sin linear_libm (Qc_of_Z 0) = Qc_of_Z 0) by reflexivity.
  assert (H2 : m_pow linear_libm (Qc_of_Z 0) 2 = Qc_of_Z 0)
    by (by apply Qc_is_canon).
  assert (H3 : m_sqrt linear_libm (Qc_of_Z 0) = Qc_of_Z 0) by reflexivity.
  assert (H4 : m_asin linear_libm (Qc_of_Z 0) = Qc_of_Z 0) by reflexivity.
  assert (H5 : "DELHI" = "DELHI" ∨ CITY_COORDINATES (F:=Qc) !! "DELHI" = None
               ∨ CITY_COORDINATES (F:=Qc) !! "DELHI" = None)
    by (left; reflexivity).
  assert (H6 : 2%Z ≠ 0%Z) by lia.
  assert (H7 : emission_factor "TAXI" (Qc_of_Z 0) = Ok (f_dec 15 2))
    by reflexivity.
  repeat (split; [assumption|]).
  exact (distance_zero_and_silent_legs linear_libm H1 H2 H3 H4
           "DELHI" "DELHI" "TAXI" 2 (f_dec 15 2) H5 H6 H7).
Defined.


(** ** The Reports tab and the sidebar *)

Lemma Qc_of_Z_0 : Qc_of_Z 0 = 0%Qc.
Proof. by apply Qc_is_canon. Qed.

Lemma run_session_app {F : Type} `{PyFloat F}
  (inps1 inps2 : list (submission F)) (s : session_state F) :
  run_session (inps1 ++ inps2) s = run_session inps2 (run_session inps1 s).
Proof. unfold run_session. apply fold_left_app. Qed.

Lemma exact_running_sum3 (t a m : Qc) :
  running_sum [t; a; m] = (t + a + m)%Qc.
Proof.
  unfold running_sum. cbn [fold_left f_add f_of_Z Exact].
  rewrite Qc_of_Z_0. ring.
Qed.

(** With a history and three subtotals that add up to 0, the pie cannot
    be computed. *)
Lemma reports_tab_zero_total (s : session_state Qc) :
  emissions_data s ≠ [] →
  transport_emissions s + accommodation_emissions s + meal_emissions s
    = Qc_of_Z 0 →
  reports_tab s = Raise ZeroDivisionError.
Proof.
  unfold reports_tab, create_emissions_chart, percent, truediv_float.
  rewrite exact_running_sum3.
  unfold f_is_zero, Exact_zero. cbn [f_add Exact].
  intros Hne Htot. destruct (emissions_data s) as [|e es]; [done|].
  by rewrite (bool_decide_eq_true_2 _ Htot).
Qed.



(** X12: in exact arithmetic, once a press whose total is 0 has gone
    through (a single leg of distance 0, say), the Reports tab raises
    [ZeroDivisionError], whatever was recorded before. *)
Theorem zero_emission_press_breaks_reports
  (inps : list (submission Qc)) (inp : submission Qc) (r : subtotals Qc) :
  loops inp = Ok r →
  unrounded_total r = Qc_of_Z 0 →
  reports_tab (run_session (inps ++ [inp]) init_state)
  = Raise ZeroDivisionError.
Proof.
  intros Hr Hzero. rewrite run_session_app.
  unfold run_session at 1. cbn [fold_left].
  rewrite calculate_emissions_unfold, Hr. cbn [snd].
  apply reports_tab_zero_total; cbn [committed emissions_data
    transport_emissions accommodation_emissions meal_emissions].
  - by destruct (emissions_data _).
  - exact Hzero.
Qed.

Lemma zero_emission_press_breaks_reports_witness :
  ∃ r, loops (F:=Qc) still_press = Ok r
       ∧ unrounded_total r = Qc_of_Z 0
       ∧ reports_tab (run_session (F:=Qc) ([business_trip] ++ [still_press])
                        init_state)
         = Raise ZeroDivisionError.
Proof.
  assert (Hr : ∃ r, loops (F:=Qc) still_press = Ok r)
    by (eexists; reflexivity).
  destruct Hr as [r Hr].
  assert (Hz : unrounded_total r = Qc_of_Z 0).
  { apply Ok_inj in Hr. subst r. by apply Qc_is_canon. }
  exists r. split; [exact Hr|]. split; [exact Hz|].
  exact (zero_emission_press_breaks_reports [business_trip] still_press r
           Hr Hz).
Defined.

(** The same press in binary64: the tab raises there too. *)
Example zero_emission_press_binary64 :
  reports_tab (run_session (F:=float) [business_trip; still_press] init_state)
  = Raise ZeroDivisionError.
Proof. vm_compute. reflexivity. Qed.

(** X13: the figure the sidebar shows under "Last Calculation" is absent
    until a press has gone through and is then [round(., 2)] of the
    running sum of the unrounded totals of all the presses that went
    through, not the total of the last one: in binary64, after the rail
    leg from Chennai to Delhi is submitted twice it is 122.9, and the
    last entry records 61.45. *)
Theorem sidebar_shows_running_total :
  (∀ F (HF : PyFloat F) (inps : list (submission F)),
     sidebar_last_calculation (run_session inps init_state) =
       match oks (map submission_total inps) with
       | [] => None
       | u :: us => Some (f_round2 (running_sum (u :: us)))
       end)
  ∧ (∃ (inps : list (submission float)) (e : entry float),
       list.last (emissions_data (run_session inps init_state)) = Some e
       ∧ sidebar_last_calculation (run_session inps init_state)
         ≠ Some (Total_Emissions e)).
Proof.
  split.
  - intros F HF inps. unfold sidebar_last_calculation.
    destruct (run_session_spec inps init_state) as [-> ->].
    cbn [init_state emissions_data total_emissions app].
    pose proof (f_equal length (recorded_totals inps)) as Hlen.
    rewrite !length_map in Hlen.
    destruct (oks (map submission_entry inps)) as [|e es];
      destruct (oks (map submission_total inps)) as [|u us]; done.
  - exists [chennai_delhi; chennai_delhi]. eexists. split; [reflexivity|].
    intros Heq. apply (f_equal (λ o, Prim2SF (default 0%float o))) in Heq.
    vm_compute in Heq. discriminate Heq.
Qed.

(** ** The stays of the second tab *)

(** X14: the second tab turns its blocks into one stay tuple and one meal
    tuple each, in the order of the blocks, carrying the block's
    values; the meal tuple of a block has the nights of the block's
    stay. *)
Theorem form_stays_lockstep (rows : list stay_row) :
  map location (form_stays rows).1 = map row_location rows
  ∧ map hotel_type (form_stays rows).1 = map row_hotel_type rows
  ∧ map stay_nights (form_stays rows).1 = map row_nights rows
  ∧ map breakfast (form_stays rows).2 = map row_breakfast rows
  ∧ map lunch (form_stays rows).2 = map row_lunch rows
  ∧ map dinner (form_stays rows).2 = map row_dinner rows
  ∧ map meal_nights (form_stays rows).2
    = map stay_nights (form_stays rows).1.
Proof.
  unfold form_stays.
  set (step := λ acc row, _).
  assert (Hgen : ∀ rows (acc : list stay * list meal_day),
    map location (fold_left step rows acc).1
      = (map location acc.1 ++ map row_location rows)%list
    ∧ map hotel_type (fold_left step rows acc).1
      = (map hotel_type acc.1 ++ map row_hotel_type rows)%list
    ∧ map stay_nights (fold_left step rows acc).1
      = (map stay_nights acc.1 ++ map row_nights rows)%list
    ∧ map breakfast (fold_left step rows acc).2
      = (map breakfast acc.2 ++ map row_breakfast rows)%list
    ∧ map lunch (fold_left step rows acc).2
      = (map lunch acc.2 ++ map row_lunch rows)%list
    ∧ map dinner (fold_left step rows acc).2
      = (map dinner acc.2 ++ map row_dinner rows)%list
    ∧ map meal_nights (fold_left step rows acc).2
      = (map meal_nights acc.2 ++ map row_nights rows)%list).
  { clear rows. induction rows as [|row rows IH]; intros acc.
    - cbn [fold_left map]. by rewrite !app_nil_r.
    - cbn [fold_left]. destruct (IH (step acc row)) as (-> & -> & -> & -> & -> & -> & ->).
      subst step. cbn [fst snd]. rewrite !map_app. cbn [map].
      rewrite <- !app_assoc. done. }
  destruct (Hgen rows ([], [])) as (-> & -> & -> & -> & -> & -> & ->).
  done.
Qed.

(** ** Sessions compose *)

Lemma oks_app {A} (rs1 rs2 : list (result A)) :
  oks (rs1 ++ rs2) = (oks rs1 ++ oks rs2)%list.
Proof.
  induction rs1 as [|[a|e] rs1 IH]; cbn [app oks]; [done| |done].
  by rewrite IH.
Qed.

(** X15: a press that raises is invisible: taking it out of a series of
    presses changes nothing in the state the series ends in. *)
Theorem failed_press_is_invisible {F : Type} `{PyFloat F}
  (before after : list (submission F)) (inp : submission F) (e : exn)
  (s : session_state F) :
  loops inp = Raise e →
  run_session (before ++ inp :: after) s = run_session (before ++ after) s.
Proof.
  intros He. rewrite !run_session_app, run_session_cons. by rewrite He.
Qed.

Lemma failed_press_is_invisible_witness :
  loops hostel_press = Raise (KeyError "HOSTEL")
  ∧ run_session ([business_trip] ++ hostel_press :: [business_trip])
      init_state
    = run_session ([business_trip] ++ [business_trip]) init_state.
Proof.
  assert (He : loops hostel_press = Raise (KeyError "HOSTEL"))
    by reflexivity.
  split; [exact He|].
  exact (failed_press_is_invisible [business_trip] [business_trip]
           hostel_press _ init_state He).
Defined.

(** X16: two series of presses run one after the other from the empty
    ledger leave the history of the first followed by the history of
    the second, and a running total that goes on from the first
    series' total, adding the totals of the second in order.  That is
    not the sum of the two running totals: in binary64, one rail leg
    from Chennai to Delhi and then the same leg and one from Delhi to
    Mumbai leave 163.08000000000001, and the two totals add up to
    163.07999999999998. *)
Theorem sessions_concatenate :
  (∀ F (HF : PyFloat F) (inps1 inps2 : list (submission F)),
     emissions_data (run_session (inps1 ++ inps2) init_state)
       = (emissions_data (run_session inps1 init_state)
          ++ emissions_data (run_session inps2 init_state))%list
     ∧ total_emissions (run_session (inps1 ++ inps2) init_state)
       = fold_left f_add (oks (map submission_total inps2))
           (total_emissions (run_session inps1 init_state)))
  ∧ (∃ inps1 inps2 : list (submission float),
       total_emissions (run_session (inps1 ++ inps2) init_state)
       ≠ total_emissions (run_session inps1 init_state)
         + total_emissions (run_session inps2 init_state)).
Proof.
  split.
  - intros F HF inps1 inps2.
    destruct (run_session_spec (inps1 ++ inps2) init_state) as [-> ->].
    destruct (run_session_spec inps1 init_state) as [-> ->].
    destruct (run_session_spec inps2 init_state) as [-> _].
    cbn [init_state emissions_data total_emissions app].
    rewrite !map_app, !oks_app. split; [done|]. apply fold_left_app.
  - exists [chennai_delhi], [chennai_delhi; delhi_mumbai]. intros Heq.
    apply (f_equal Prim2SF) in Heq. vm_compute in Heq. discriminate Heq.
Qed.

(** ** Rounding keeps the order *)

Lemma Qc_round2_monotone (x y : Qc) :
  (x ≤ y)%Qc → (Qc_round2 x ≤ Qc_round2 y)%Qc.
Proof.
  intros Hxy.
  destruct (decide (x = y)) as [->|Hne]; [apply Qcle_refl|].
  rewrite Qc_le_Q, !Qc_round2_Q. unfold Qle. cbn [Qnum Qden].
  pose proof (round_half_even_bounds (Qnum x * 100) (Qden x)) as Hx.
  pose proof (round_half_even_bounds (Qnum y * 100) (Qden y)) as Hy.
  assert (Hlt : (Qnum x * Zpos (Qden y) < Qnum y * Zpos (Qden x))%Z).
  { unfold Qcle, Qle in Hxy.
    destruct (Z.eq_dec (Qnum x * Zpos (Qden y))%Z (Qnum y * Zpos (Qden x))%Z)
      as [Heq|]; [|lia].
    exfalso. apply Hne. by apply Qc_is_canon. }
  set (kx := round_half_even (Qnum x * 100) (Qden x)) in *.
  set (ky := round_half_even (Qnum y * 100) (Qden y)) in *.
  assert (kx ≤ ky)%Z; [|lia].
  destruct (Z.le_gt_cases kx ky) as [|Hgt]; [done|exfalso].
  assert (ky + 1 ≤ kx)%Z as Hk by lia.
  assert (2 * (Qnum y * 100) * Zpos (Qden x)
          ≤ (2 * kx - 1) * Zpos (Qden y) * Zpos (Qden x))%Z by nia.
  assert ((2 * kx - 1) * Zpos (Qden x) * Zpos (Qden y)
          ≤ 2 * (Qnum x * 100) * Zpos (Qden y))%Z by nia.
  nia.
Qed.

(** X17: in exact arithmetic, on a leg of non-negative distance, more
    passengers never mean more per leg: with the same cities, mode and
    distance, the emission recorded for [p'] passengers is at most the
    one recorded for [p] when [1 ≤ p ≤ p']. *)
Theorem sharing_never_costs_more (t : trip Qc) (p p' : Z) (e e' : Qc) :
  (Qc_of_Z 0 ≤ distance t)%Qc → (1 ≤ p ≤ p')%Z →
  trip_emission {| from_city := from_city t; to_city := to_city t;
                   travel_mode := travel_mode t; passengers := p;
                   distance := distance t |} = Ok e →
  trip_emission {| from_city := from_city t; to_city := to_city t;
                   travel_mode := travel_mode t; passengers := p';
                   distance := distance t |} = Ok e' →
  (e' ≤ e)%Qc.
Proof.
  intros Hd [Hp Hpp'].
  unfold trip_emission, truediv. cbn [travel_mode distance passengers].
  destruct (emission_factor (travel_mode t) (distance t)) as [f|x] eqn:Hf;
    [|done].
  apply emission_factor_nonneg in Hf. cbn [mbind result_bind].
  rewrite !decide_False by lia. cbn [mbind result_bind].
  intros [= <-] [= <-]. apply Qc_round2_monotone.
  destruct p as [|p|p]; try lia. destruct p' as [|p'|p']; try lia.
  rewrite Qc_le_Q, !Qc_div_Z_Q.
  pose proof (Qc_mult_nonneg _ _ Hd Hf) as Hx. rewrite Qc_le_Q in Hx.
  cbn [f_mul Exact].
  assert ((1 # p') <= (1 # p))%Q as Hinv by (unfold Qle; cbn; lia).
  change (Qc_of_Z 0 : Q) with 0%Q in Hx.
  nra.
Qed.

Lemma sharing_never_costs_more_witness :
  (Qc_of_Z 0 ≤ distance (road_trip "CAR - GASOLINE" 1 (Qc_of_Z 1000)))%Qc
  ∧ (1 ≤ 1 ≤ 4)%Z
  ∧ trip_emission (road_trip "CAR - GASOLINE" 1 (Qc_of_Z 1000))
    = Ok (Qc_round2 (Qc_of_Z 120))
  ∧ trip_emission (road_trip "CAR - GASOLINE" 4 (Qc_of_Z 1000))
    = Ok (Qc_round2 (Qc_of_Z 30))
  ∧ (Qc_round2 (Qc_of_Z 30) ≤ Qc_round2 (Qc_of_Z 120))%Qc.
Proof.
  assert (H0 : (Qc_of_Z 0
                ≤ distance (road_trip "CAR - GASOLINE" 1 (Qc_of_Z 1000)))%Qc)
    by discriminate.
  assert (Hp : (1 ≤ 1 ≤ 4)%Z) by lia.
  assert (H1 : trip_emission (road_trip "CAR - GASOLINE" 1 (Qc_of_Z 1000))
               = Ok (Qc_round2 (Qc_of_Z 120))).
  { apply result_Qc_eq. vm_compute. reflexivity. }
  assert (H4 : trip_emission (road_trip "CAR - GASOLINE" 4 (Qc_of_Z 1000))
               = Ok (Qc_round2 (Qc_of_Z 30))).
  { apply result_Qc_eq. vm_compute. reflexivity. }
  repeat (split; [assumption|]).
  exact (sharing_never_costs_more
           (road_trip "CAR - GASOLINE" 1 (Qc_of_Z 1000)) 1 4 _ _ H0 Hp H1 H4).
Defined.

(** X18: in exact arithmetic, for a mode that does not start with FLIGHT
    the recorded emission of a leg never goes down when its distance
    goes up, the passengers staying the same.  For flights it can: 799
    km in economy records 119.85 and 800 km records 96. *)
Theorem emission_and_distance :
  (∀ (t1 t2 : trip Qc) (e1 e2 : Qc),
     startswith (travel_mode t1) "FLIGHT" = false →
     travel_mode t2 = travel_mode t1 →
     passengers t2 = passengers t1 → (1 ≤ passengers t1)%Z →
     (distance t1 ≤ distance t2)%Qc →
     trip_emission t1 = Ok e1 → trip_emission t2 = Ok e2 →
     (e1 ≤ e2)%Qc)
  ∧ (∃ e1 e2 : Qc,
       trip_emission (road_trip "FLIGHT - ECONOMY" 1 (Qc_of_Z 799)) = Ok e1
       ∧ trip_emission (road_trip "FLIGHT - ECONOMY" 1 (Qc_of_Z 800)) = Ok e2
       ∧ (e2 < e1)%Qc).
Proof.
  split.
  - intros t1 t2 e1 e2 Hmode Hm Hp Hp1 Hd.
    unfold trip_emission, truediv. rewrite Hm, Hp.
    unfold emission_factor. rewrite Hmode.
    destruct (getitem EMISSION_FACTORS (travel_mode t1) ≫= _)
      as [f|x] eqn:Hf; [|done].
    assert (Hfpos : (Qc_of_Z 0 ≤ f)%Qc).
    { apply (emission_factor_nonneg (travel_mode t1) (distance t1)).
      unfold emission_factor. by rewrite Hmode. }
    cbn [mbind result_bind]. rewrite !decide_False by lia.
    cbn [mbind result_bind]. intros [= <-] [= <-].
    apply Qc_round2_monotone.
    destruct (passengers t1) as [|p|p]; try lia.
    rewrite Qc_le_Q, !Qc_div_Z_Q. cbn [f_mul Exact]. rewrite !Qc_mult_Q.
    rewrite Qc_le_Q in Hd, Hfpos. change (Qc_of_Z 0 : Q) with 0%Q in Hfpos.
    apply Qmult_le_compat_r; [|done].
    by apply Qmult_le_compat_r.
  - exists (f_dec 11985 2), (Qc_of_Z 96). split; [|split].
    + apply result_Qc_eq. vm_compute. reflexivity.
    + apply result_Qc_eq. vm_compute. reflexivity.
    + reflexivity.
Qed.

Lemma emission_and_distance_witness :
  startswith "TAXI" "FLIGHT" = false
  ∧ (1 ≤ 1)%Z
  ∧ (Qc_of_Z 10 ≤ Qc_of_Z 20)%Qc
  ∧ trip_emission (road_trip "TAXI" 1 (Qc_of_Z 10))
    = Ok (Qc_round2 (f_dec 15 1))
  ∧ trip_emission (road_trip "TAXI" 1 (Qc_of_Z 20))
    = Ok (Qc_round2 (Qc_of_Z 3))
  ∧ (Qc_round2 (f_dec 15 1) ≤ Qc_round2 (Qc_of_Z 3))%Qc.
Proof.
  assert (H1 : startswith "TAXI" "FLIGHT" = false) by reflexivity.
  assert (H2 : (1 ≤ 1)%Z) by lia.
  assert (H3 : (Qc_of_Z 10 ≤ Qc_of_Z 20)%Qc) by discriminate.
  assert (H4 : trip_emission (road_trip "TAXI" 1 (Qc_of_Z 10))
               = Ok (Qc_round2 (f_dec 15 1))).
  { apply result_Qc_eq. vm_compute. reflexivity. }
  assert (H5 : trip_emission (road_trip "TAXI" 1 (Qc_of_Z 20))
               = Ok (Qc_round2 (Qc_of_Z 3))).
  { apply result_Qc_eq. vm_compute. reflexivity. }
  repeat (split; [assumption|]).
  exact (proj1 emission_and_distance
           (road_trip "TAXI" 1 (Qc_of_Z 10)) (road_trip "TAXI" 1 (Qc_of_Z 20))
           _ _ H1 eq_refl eq_refl H2 H3 H4 H5).
Defined.
